(** * Verification of the struct-field validation package (validation.go)

    A shallow embedding of [Validate], the field resolver
    ([getField], [getFieldByJsonTag]) and the validator library, together
    with the small part of the Go runtime and standard library that the
    package calls: interface values and their reflect kinds, run-time
    panics, [strings], [fmt.Sprintf] with [%d], [regexp] and
    [time.Parse] for the layout 2006-01-02. *)

From Stdlib Require Import ZArith List Bool Ascii String Lia.
From Stdlib Require Import Numbers.DecimalString.
Import ListNotations.

Open Scope string_scope.
Open Scope Z_scope.

(* ================================================================== *)
(** ** Go runtime: normal return or run-time panic *)

Module GoRuntime.

(** The run-time panics the package can raise. *)
Inductive panic : Type :=
| InterfaceConversion    (* x.(T) without the comma-ok form, dynamic type is not T *)
| NilPointerDereference  (* field access through a nil pointer *)
| UnexportedField.       (* reflect.Value.Interface on an unexported field *)

(** A Go call either returns a value or panics; nothing in the package
    recovers, so a panic travels up to the caller of [Validate]. *)
Inductive outcome (A : Type) : Type :=
| Returned (a : A)
| Panicked (p : panic).

Arguments Returned {A} a.
Arguments Panicked {A} p.

Definition bind {A B : Type} (m : outcome A) (k : A -> outcome B) : outcome B :=
  match m with
  | Returned a => k a
  | Panicked p => Panicked p
  end.

Definition returns {A : Type} (m : outcome A) : bool :=
  match m with
  | Returned _ => true
  | Panicked _ => false
  end.

End GoRuntime.
Export GoRuntime.

Notation "x <- m ;; k" := (bind m (fun x => k))
  (at level 61, m at next level, right associativity).

(* ================================================================== *)
(** ** Package strings and fmt *)

Module GoStrings.

Definition byte_in (lo hi c : ascii) : bool :=
  ((nat_of_ascii lo <=? nat_of_ascii c) && (nat_of_ascii c <=? nat_of_ascii hi))%nat.

Definition is_upper (c : ascii) : bool := byte_in "A" "Z" c.
Definition is_lower (c : ascii) : bool := byte_in "a" "z" c.
Definition is_digit (c : ascii) : bool := byte_in "0" "9" c.

(** Strings that hold ASCII bytes only.  On these the byte-wise
    [ToLower] below is what Go's strings.ToLower computes. *)
Definition is_ascii_byte (c : ascii) : bool := (nat_of_ascii c <? 128)%nat.

Fixpoint isASCII (s : string) : bool :=
  match s with
  | EmptyString => true
  | String c rest => is_ascii_byte c && isASCII rest
  end.

Definition lower_byte (c : ascii) : ascii :=
  if is_upper c then ascii_of_nat (nat_of_ascii c + 32) else c.

(** strings.ToLower, on ASCII text. *)
Fixpoint ToLower (s : string) : string :=
  match s with
  | EmptyString => EmptyString
  | String c rest => String (lower_byte c) (ToLower rest)
  end.

(** strings.HasPrefix(s, prefix) *)
Definition HasPrefix (s pre : string) : bool := String.prefix pre s.

(** strings.TrimPrefix(s, prefix): s without the leading prefix, or s
    itself when it does not start with prefix. *)
Definition TrimPrefix (s pre : string) : string :=
  if HasPrefix s pre
  then String.substring (String.length pre) (String.length s - String.length pre) s
  else s.

(** The decimal text fmt.Sprintf writes for the verb %d. *)
Definition format_d (n : Z) : string := NilEmpty.string_of_int (Z.to_int n).

End GoStrings.
Export GoStrings.

(* ================================================================== *)
(** ** Package regexp

    The patterns of the package are all anchored with ^ and $ and use
    ASCII classes only, so MatchString decides membership of the whole
    byte string in the language of the pattern.  The matcher works by
    derivatives. *)

Module Regexp.

Inductive regex : Type :=
| Void
| Eps
| Class (p : ascii -> bool)
| Cat (r1 r2 : regex)
| Alt (r1 r2 : regex)
| Star (r : regex).

Fixpoint nullable (r : regex) : bool :=
  match r with
  | Void => false
  | Eps => true
  | Class _ => false
  | Cat r1 r2 => nullable r1 && nullable r2
  | Alt r1 r2 => nullable r1 || nullable r2
  | Star _ => true
  end.

(** Constructors that drop the dead branches a derivative leaves behind. *)
Definition cat (r1 r2 : regex) : regex :=
  match r1, r2 with
  | Void, _ => Void
  | _, Void => Void
  | Eps, _ => r2
  | _, _ => Cat r1 r2
  end.

Definition alt (r1 r2 : regex) : regex :=
  match r1, r2 with
  | Void, _ => r2
  | _, Void => r1
  | _, _ => Alt r1 r2
  end.

Fixpoint deriv (c : ascii) (r : regex) : regex :=
  match r with
  | Void => Void
  | Eps => Void
  | Class p => if p c then Eps else Void
  | Cat r1 r2 =>
      if nullable r1
      then alt (cat (deriv c r1) r2) (deriv c r2)
      else cat (deriv c r1) r2
  | Alt r1 r2 => alt (deriv c r1) (deriv c r2)
  | Star r1 => cat (deriv c r1) (Star r1)
  end.

Fixpoint matches (r : regex) (s : string) : bool :=
  match s with
  | EmptyString => nullable r
  | String c rest => matches (deriv c r) rest
  end.

(** Pattern syntax. *)
Definition Lit (c : ascii) : regex := Class (Ascii.eqb c).

Fixpoint Str (s : string) : regex :=
  match s with
  | EmptyString => Eps
  | String c rest => Cat (Lit c) (Str rest)
  end.

Definition Plus (r : regex) : regex := Cat r (Star r).
Definition Opt (r : regex) : regex := Alt Eps r.

(** r{n} *)
Fixpoint Times (n : nat) (r : regex) : regex :=
  match n with
  | O => Eps
  | S k => Cat r (Times k r)
  end.

(** r{0,n} *)
Fixpoint UpTo (n : nat) (r : regex) : regex :=
  match n with
  | O => Eps
  | S k => Opt (Cat r (UpTo k r))
  end.

(** r{n,} and r{n,m} *)
Definition AtLeast (n : nat) (r : regex) : regex := Cat (Times n r) (Star r).
Definition Between (n m : nat) (r : regex) : regex := Cat (Times n r) (UpTo (m - n) r).

(** Character classes: \d, [a-zA-Z], \w, and a set of listed bytes. *)
Definition digit : ascii -> bool := is_digit.
Definition alpha (c : ascii) : bool := is_lower c || is_upper c.
Definition word (c : ascii) : bool := alpha c || is_digit c || Ascii.eqb c "_".

Fixpoint one_of (set : string) (c : ascii) : bool :=
  match set with
  | EmptyString => false
  | String d rest => Ascii.eqb d c || one_of rest c
  end.

(** regexp.MatchString and the MatchString method of a compiled pattern,
    for an anchored pattern. *)
Definition MatchString (pattern : regex) (s : string) : bool := matches pattern s.

(** The language of a pattern: what the anchored pattern denotes. *)
Inductive lang : regex -> string -> Prop :=
| lang_eps : lang Eps EmptyString
| lang_class (p : ascii -> bool) (c : ascii) :
    p c = true -> lang (Class p) (String c EmptyString)
| lang_seq (r1 r2 : regex) (s1 s2 : string) :
    lang r1 s1 -> lang r2 s2 -> lang (Cat r1 r2) (s1 ++ s2)
| lang_left (r1 r2 : regex) (s : string) : lang r1 s -> lang (Alt r1 r2) s
| lang_right (r1 r2 : regex) (s : string) : lang r2 s -> lang (Alt r1 r2) s
| lang_star_nil (r : regex) : lang (Star r) EmptyString
| lang_star_more (r : regex) (s1 s2 : string) :
    lang r s1 -> lang (Star r) s2 -> lang (Star r) (s1 ++ s2).

End Regexp.

(* ================================================================== *)
(** ** Package time: Parse with the layout 2006-01-02 *)

Module GoTime.

Record date : Type := mkDate { Year : Z; Month : Z; Day : Z }.

Definition digit_val (c : ascii) : Z := Z.of_nat (nat_of_ascii c) - 48.

Definition isLeap (year : Z) : bool :=
  (year mod 4 =? 0) && (negb (year mod 100 =? 0) || (year mod 400 =? 0)).

Definition daysIn (m year : Z) : Z :=
  if (m =? 2) && isLeap year then 29
  else if m =? 2 then 28
  else if (m =? 4) || (m =? 6) || (m =? 9) || (m =? 11) then 30
  else 31.

(** getnum(s, fixed = true): exactly two digits. *)
Definition getnum2 (s : string) : option (Z * string) :=
  match s with
  | String a (String b rest) =>
      if is_digit a && is_digit b
      then Some (digit_val a * 10 + digit_val b, rest)
      else None
  | _ => None
  end.

(** The chunk 2006: four bytes, all digits. *)
Definition getyear (s : string) : option (Z * string) :=
  match s with
  | String a (String b (String c (String d rest))) =>
      if is_digit a && is_digit b && is_digit c && is_digit d
      then Some (((digit_val a * 10 + digit_val b) * 10 + digit_val c) * 10 + digit_val d, rest)
      else None
  | _ => None
  end.

(** skip(value, "-") *)
Definition skip_dash (s : string) : option string :=
  match s with
  | String c rest => if Ascii.eqb c "-" then Some rest else None
  | EmptyString => None
  end.

(** time.Parse("2006-01-02", s): [None] stands for a returned error.
    The month is range-checked when it is read, text after the day is an
    error, and the day is checked against the length of the month last. *)
Definition Parse (s : string) : option date :=
  match getyear s with
  | None => None
  | Some (year, s1) =>
    match skip_dash s1 with
    | None => None
    | Some s2 =>
      match getnum2 s2 with
      | None => None
      | Some (month, s3) =>
        if (month <=? 0) || (12 <? month) then None else
        match skip_dash s3 with
        | None => None
        | Some s4 =>
          match getnum2 s4 with
          | None => None
          | Some (day, s5) =>
            if negb (String.eqb s5 EmptyString) then None
            else if (day <? 1) || (daysIn month year <? day) then None
            else Some (mkDate year month day)
          end
        end
      end
    end
  end.

End GoTime.

(* ================================================================== *)
(** ** Interface values, package reflect and multipart.FileHeader *)

Module Reflect.

(** reflect.Kind; the K prefix keeps the names apart from Rocq's own. *)
Inductive Kind : Type :=
| KInvalid | KBool
| KInt | KInt8 | KInt16 | KInt32 | KInt64
| KUint | KUint8 | KUint16 | KUint32 | KUint64 | KUintptr
| KFloat32 | KFloat64 | KComplex64 | KComplex128
| KArray | KChan | KFunc | KInterface | KMap | KPointer | KSlice
| KString | KStruct | KUnsafePointer.

Inductive IntType : Type := TInt | TInt8 | TInt16 | TInt32 | TInt64.
Inductive UintType : Type := TUint | TUint8 | TUint16 | TUint32 | TUint64 | TUintptr.
Inductive FloatType : Type := TFloat32 | TFloat64.
Inductive OtherType : Type := TComplex64 | TComplex128 | TChan | TFunc | TUnsafePointer.

(** multipart.FileHeader: the uploaded-file handle.  Header is a
    textproto.MIMEHeader, a map from canonical key to its values. *)
Record FileHeader : Type := mkFileHeader {
  Filename : string;
  Header : list (string * list string);
  Size : Z
}.

(** One field of a struct: its name, whether it is exported, what
    Tag.Get("json") returns for it, and the value it holds (for a field
    of interface type, the dynamic value, [VNil] when the interface is
    nil). *)
Record StructField (V : Type) : Type := mkField {
  fieldName : string;
  exported : bool;
  jsonTag : string;
  fieldValue : V
}.

Arguments mkField {V} fieldName exported jsonTag fieldValue.
Arguments fieldName {V} s.
Arguments exported {V} s.
Arguments jsonTag {V} s.
Arguments fieldValue {V} s.

(** What an interface{} can hold. *)
#[warnings="-register-all"] Inductive value : Type :=
| VNil                                          (* the nil interface *)
| VBool (b : bool)
| VInt (t : IntType) (n : Z)
| VUint (t : UintType) (n : Z)
| VFloat (t : FloatType) (bits : Z)
| VString (s : string)                          (* of type string *)
| VNamedString (tname : string) (s : string)    (* of a defined type over string *)
| VSlice (elems : list value)
| VArray (elems : list value)
| VMap (entries : list (value * value))
| VStruct (fields : list (StructField value))
| VPtr (target : option value)                  (* None: a nil pointer *)
| VFileHeader (file : option FileHeader)        (* pointer to multipart.FileHeader; None: nil *)
| VOther (t : OtherType).

(** reflect.TypeOf(v).Kind() for a non-nil v; reflect.ValueOf(nil).Kind()
    is Invalid. *)
Definition kind_of (v : value) : Kind :=
  match v with
  | VNil => KInvalid
  | VBool _ => KBool
  | VInt TInt _ => KInt
  | VInt TInt8 _ => KInt8
  | VInt TInt16 _ => KInt16
  | VInt TInt32 _ => KInt32
  | VInt TInt64 _ => KInt64
  | VUint TUint _ => KUint
  | VUint TUint8 _ => KUint8
  | VUint TUint16 _ => KUint16
  | VUint TUint32 _ => KUint32
  | VUint TUint64 _ => KUint64
  | VUint TUintptr _ => KUintptr
  | VFloat TFloat32 _ => KFloat32
  | VFloat TFloat64 _ => KFloat64
  | VString _ => KString
  | VNamedString _ _ => KString
  | VSlice _ => KSlice
  | VArray _ => KArray
  | VMap _ => KMap
  | VStruct _ => KStruct
  | VPtr _ => KPointer
  | VFileHeader _ => KPointer
  | VOther TComplex64 => KComplex64
  | VOther TComplex128 => KComplex128
  | VOther TChan => KChan
  | VOther TFunc => KFunc
  | VOther TUnsafePointer => KUnsafePointer
  end.

(** reflect.ValueOf(v).Len(), called on slices and maps only. *)
Definition Len (v : value) : Z :=
  match v with
  | VSlice elems => Z.of_nat (List.length elems)
  | VArray elems => Z.of_nat (List.length elems)
  | VMap entries => Z.of_nat (List.length entries)
  | VString s => Z.of_nat (String.length s)
  | VNamedString _ s => Z.of_nat (String.length s)
  | _ => 0
  end.

(** value == nil *)
Definition is_nil (v : value) : bool :=
  match v with
  | VNil => true
  | _ => false
  end.

(** value compared with the empty string constant: the dynamic type is
    string and the string is empty. *)
Definition is_empty_string (v : value) : bool :=
  match v with
  | VString s => String.eqb s EmptyString
  | _ => false
  end.

(** s, ok := value.(string) *)
Definition as_string (v : value) : option string :=
  match v with
  | VString s => Some s
  | _ => None
  end.

(** value.(string), which panics when the dynamic type is not string. *)
Definition must_string (v : value) : outcome string :=
  match as_string v with
  | Some s => Returned s
  | None => Panicked InterfaceConversion
  end.

(** file, ok := value.(T) for T the pointer type to multipart.FileHeader *)
Definition as_file (v : value) : option (option FileHeader) :=
  match v with
  | VFileHeader file => Some file
  | _ => None
  end.

(** Reading a field through the pointer. *)
Definition deref (file : option FileHeader) : outcome FileHeader :=
  match file with
  | Some fh => Returned fh
  | None => Panicked NilPointerDereference
  end.

(** MIMEHeader.Get(key): the first value stored under the key. *)
Fixpoint header_get (h : list (string * list string)) (key : string) : string :=
  match h with
  | [] => EmptyString
  | (k, vs) :: rest =>
      if String.eqb k key then hd EmptyString vs else header_get rest key
  end.

(** The exported fields of multipart.FileHeader as reflect sees them
    (none carries a json tag; the unexported ones follow them). *)
Definition fileHeaderFields (fh : FileHeader) : list (StructField value) :=
  [ mkField "Filename" true EmptyString (VString (Filename fh));
    mkField "Header" true EmptyString
      (VMap (map (fun kv => (VString (fst kv), VSlice (map VString (snd kv)))) (Header fh)));
    mkField "Size" true EmptyString (VInt TInt64 (Size fh)) ].

End Reflect.
Export Reflect.

(* ================================================================== *)
(** ** validation.go *)

Module Validation.

Import Regexp.

Record ValidationErrorItem : Type := mkItem {
  Field : string;
  Message : string
}.

(** The zero value ValidationErrorItem{}: a validator's way to say pass. *)
Definition NoError : ValidationErrorItem := mkItem EmptyString EmptyString.

Definition item_eqb (a b : ValidationErrorItem) : bool :=
  String.eqb (Field a) (Field b) && String.eqb (Message a) (Message b).

Definition failure (message : string) : outcome ValidationErrorItem :=
  Returned (mkItem EmptyString message).

Definition pass : outcome ValidationErrorItem := Returned NoError.

Definition ValidationFunc : Type := value -> outcome ValidationErrorItem.

(** ValidationRule; its Field is [RuleField] here, the name [Field]
    being taken by the error item. *)
Record ValidationRule : Type := mkRule {
  RuleField : string;
  Description : string;
  Validations : list ValidationFunc
}.

(** The guard that opens every validator: value == nil or value equal to
    the empty string. *)
Definition absent (v : value) : bool := is_nil v || is_empty_string v.

(** *** Field resolver *)

(** for val.Kind() == reflect.Ptr { val = val.Elem() }
    [None] is the zero reflect.Value, which ValueOf(nil) and the Elem of
    a nil pointer give. *)
Fixpoint indirect (v : value) : option value :=
  match v with
  | VNil => None
  | VPtr None => None
  | VPtr (Some target) => indirect target
  | VFileHeader None => None
  | VFileHeader (Some fh) => Some (VStruct (fileHeaderFields fh))
  | _ => Some v
  end.

(** The loop over the fields of the struct: the first field whose json
    tag equals the name decides; Interface() panics on an unexported one. *)
Fixpoint lookupTag (fields : list (StructField value)) (field : string) : outcome value :=
  match fields with
  | [] => Returned VNil
  | f :: rest =>
      if String.eqb (jsonTag f) field
      then if exported f then Returned (fieldValue f) else Panicked UnexportedField
      else lookupTag rest field
  end.

Definition getFieldByJsonTag (data : value) (field : string) : outcome value :=
  match indirect data with
  | Some (VStruct fields) => lookupTag fields field
  | _ => Returned VNil
  end.

(** getField returns (value, nil) as [inl value] and (nil, err) as
    [inr] of err.Error(). *)
Definition getField (data : value) (field : string) : outcome (value + string) :=
  v <- getFieldByJsonTag data field ;;
  if is_nil v
  then Returned (inr ("field not found: " ++ field))
  else Returned (inl v).

(** *** Rule engine *)

(** The inner loop of Validate over rule.Validations. *)
Fixpoint runValidations (field : string) (fieldValue : value)
    (validations : list ValidationFunc) (validationErrs : list ValidationErrorItem)
    : outcome (list ValidationErrorItem) :=
  match validations with
  | [] => Returned validationErrs
  | validation :: rest =>
      validationErr <- validation fieldValue ;;
      if negb (item_eqb validationErr NoError)
      then runValidations field fieldValue rest
             (validationErrs ++ [mkItem field (Message validationErr)])%list
      else runValidations field fieldValue rest validationErrs
  end.

(** One turn of the outer loop. *)
Definition validateRule (data : value) (validationErrs : list ValidationErrorItem)
    (rule : ValidationRule) : outcome (list ValidationErrorItem) :=
  r <- getField data (RuleField rule) ;;
  match r with
  | inr err => Returned (validationErrs ++ [mkItem (RuleField rule) err])%list
  | inl fieldValue =>
      runValidations (RuleField rule) fieldValue (Validations rule) validationErrs
  end.

Fixpoint validateRules (data : value) (rules : list ValidationRule)
    (validationErrs : list ValidationErrorItem) : outcome (list ValidationErrorItem) :=
  match rules with
  | [] => Returned validationErrs
  | rule :: rest =>
      errs <- validateRule data validationErrs rule ;;
      validateRules data rest errs
  end.

Definition Validate (data : value) (rules : list ValidationRule)
    : outcome (list ValidationErrorItem) :=
  validateRules data rules [].

(** *** Validator library *)

Definition RequiredValidation (v : value) : outcome ValidationErrorItem :=
  if absent v then failure "Field is required"
  else match kind_of v with
       | KString =>
           s <- must_string v ;;
           if String.eqb s EmptyString then failure "Field is required" else pass
       | KSlice | KMap =>
           if Len v =? 0 then failure "Field is required" else pass
       | _ => pass
       end.

Definition MinLengthValidation (minLength : Z) (v : value) : outcome ValidationErrorItem :=
  if absent v then pass
  else match kind_of v with
       | KString =>
           s <- must_string v ;;
           if Z.of_nat (String.length s) <? minLength
           then failure ("Field must be at least " ++ format_d minLength ++ " characters long")
           else pass
       | KSlice | KMap =>
           if Len v <? minLength
           then failure ("Field must have at least " ++ format_d minLength ++ " items")
           else pass
       | _ => pass
       end.

Definition MaxLengthValidation (maxLength : Z) (v : value) : outcome ValidationErrorItem :=
  if absent v then pass
  else match kind_of v with
       | KString =>
           s <- must_string v ;;
           if maxLength <? Z.of_nat (String.length s)
           then failure ("Field must not exceed " ++ format_d maxLength ++ " characters")
           else pass
       | KSlice | KMap =>
           if maxLength <? Len v
           then failure ("Field must not have more than " ++ format_d maxLength ++ " items")
           else pass
       | _ => pass
       end.

(** ^[a-zA-Z0-9._%+\-]+@[a-zA-Z0-9.\-]+\.[a-zA-Z]{2,}$ *)
Definition emailRegex : regex :=
  Cat (Plus (Class (fun c => alpha c || digit c || one_of "._%+-" c)))
 (Cat (Lit "@")
 (Cat (Plus (Class (fun c => alpha c || digit c || one_of ".-" c)))
 (Cat (Lit ".")
      (AtLeast 2 (Class alpha))))).

Definition EmailValidation (v : value) : outcome ValidationErrorItem :=
  if absent v then pass
  else match as_string v with
       | None => pass
       | Some email =>
           if negb (MatchString emailRegex email)
           then failure "Field must be a valid email address"
           else pass
       end.

(** ^\+[1-9]\d{1,14}$ *)
Definition phoneRegex : regex :=
  Cat (Lit "+") (Cat (Class (byte_in "1" "9")) (Between 1 14 (Class digit))).

Definition PhoneValidation (v : value) : outcome ValidationErrorItem :=
  if absent v then pass
  else
    s <- must_string v ;;
    if negb (MatchString phoneRegex s)
    then failure "Invalid phone number format"
    else pass.

(** ^(http|https)://[\w\-_]+(\.[\w\-_]+)+([\w\-\.,@?^=%&:/~\+#]*[\w\-\@?^=%&/~\+#])?$
    The pattern compiles, so the branch on a compile error is never taken. *)
Definition urlRegex : regex :=
  let host := Class (fun c => word c || one_of "-_" c) in
  let inner := Class (fun c => word c || one_of "-.,@?^=%&:/~+#" c) in
  let last := Class (fun c => word c || one_of "-@?^=%&/~+#" c) in
  Cat (Alt (Str "http") (Str "https"))
 (Cat (Str "://")
 (Cat (Plus host)
 (Cat (Plus (Cat (Lit ".") (Plus host)))
      (Opt (Cat (Star inner) last))))).

Definition URLValidation (v : value) : outcome ValidationErrorItem :=
  if absent v then pass
  else match as_string v with
       | None => failure "Value is not a string"
       | Some urlStr =>
           if negb (MatchString urlRegex urlStr)
           then failure "Value is not a valid URL"
           else pass
       end.

Definition StringValidation (v : value) : outcome ValidationErrorItem :=
  if absent v then pass
  else match kind_of v with
       | KString => pass
       | _ => failure "Field must be a string"
       end.

(** ^[0-9]+$ *)
Definition numericRegex : regex := Plus (Class (byte_in "0" "9")).

Definition NumericValidation (v : value) : outcome ValidationErrorItem :=
  if absent v then pass
  else match kind_of v with
       | KString =>
           s <- must_string v ;;
           if negb (MatchString numericRegex s)
           then failure "Field must be numeric"
           else pass
       | KInt | KInt8 | KInt16 | KInt32 | KInt64 => pass
       | KUint | KUint8 | KUint16 | KUint32 | KUint64 => pass
       | _ => failure "Field must be numeric"
       end.

(** ^\d{4}-\d{2}-\d{2}$ *)
Definition dateRegex : regex :=
  Cat (Times 4 (Class digit))
 (Cat (Lit "-")
 (Cat (Times 2 (Class digit))
 (Cat (Lit "-")
      (Times 2 (Class digit))))).

Definition DateValidation (v : value) : outcome ValidationErrorItem :=
  if absent v then pass
  else match as_string v with
       | None => failure "Invalid date format"
       | Some dateStr =>
           if negb (MatchString dateRegex dateStr) then failure "Invalid date format"
           else match GoTime.Parse dateStr with
                | None => failure "Invalid date"
                | Some date =>
                    if (GoTime.Year date <? 1) || (9999 <? GoTime.Year date)
                    then failure "Invalid year"
                    else if (GoTime.Month date <? 1) || (12 <? GoTime.Month date)
                    then failure "Invalid month"
                    else if (GoTime.Day date <? 1) || (31 <? GoTime.Day date)
                    then failure "Invalid day"
                    else pass
                end
       end.

(** file.Header.Get("Content-Type") *)
Definition contentType (fh : FileHeader) : string := header_get (Header fh) "Content-Type".

Definition ImageValidation (v : value) : outcome ValidationErrorItem :=
  if absent v then pass
  else match as_file v with
       | None => failure "Invalid file format"
       | Some file =>
           fh <- deref file ;;
           if negb (HasPrefix (contentType fh) "image/")
           then failure "File must be an image"
           else pass
       end.

Definition FileSizeValidation (maxSize : Z) (v : value) : outcome ValidationErrorItem :=
  if absent v then pass
  else match as_file v with
       | None => failure "Invalid file format"
       | Some file =>
           fh <- deref file ;;
           if maxSize <? Size fh
           then failure ("File size must be less than " ++ format_d maxSize ++ " bytes")
           else pass
       end.

Fixpoint contains (s : list string) (e : string) : bool :=
  match s with
  | [] => false
  | a :: rest => if String.eqb a e then true else contains rest e
  end.

Definition allowedMimeTypes : list string :=
  ["image/png"; "image/jpg"; "image/jpeg"; "image/svg+xml"].

Definition ImageMimeValidation (v : value) : outcome ValidationErrorItem :=
  if absent v then pass
  else match as_file v with
       | None => failure "Invalid file format"
       | Some file =>
           fh <- deref file ;;
           if negb (contains allowedMimeTypes (contentType fh))
           then failure "File must be a PNG, JPG, JPEG or SVG"
           else pass
       end.

Definition FileValidation (v : value) : outcome ValidationErrorItem :=
  if absent v then pass
  else match as_file v with
       | None => failure "Invalid file format"
       | Some _ => pass
       end.

Definition FileTypeValidation (v : value) (validTypes : list string)
    : outcome ValidationErrorItem :=
  if absent v then pass
  else match as_file v with
       | None => failure "Invalid file format"
       | Some file =>
           fh <- deref file ;;
           let fileType := ToLower (TrimPrefix (contentType fh) "application/") in
           if negb (contains validTypes fileType)
           then failure "File type is not allowed"
           else pass
       end.

End Validation.

(* ================================================================== *)
(** * Vocabulary of the statements *)

Import Validation.
Import Regexp.

Open Scope list_scope.

(** The items a rule adds for the results [rs] of its validators, in
    their order: each failing result under the rule's field name. *)
Definition collect (field : string) (rs : list ValidationErrorItem) : list ValidationErrorItem :=
  map (fun r => mkItem field (Message r))
      (filter (fun r => negb (item_eqb r NoError)) rs).

(** The record, once dereferenced, is a struct with a field whose json
    tag is the given name. *)
Definition hasTag (data : value) (field : string) : bool :=
  match indirect data with
  | Some (VStruct fields) => existsb (fun f => String.eqb (jsonTag f) field) fields
  | _ => false
  end.

(** A struct with two string fields whose external names are name and
    password, and the rule-set of the README for it. *)
Definition user (name password : string) : value :=
  VStruct [ mkField "Name" true "name" (VString name);
            mkField "Password" true "password" (VString password) ].

Definition userRules : list ValidationRule :=
  [ mkRule "name" "Name"
      [RequiredValidation; MinLengthValidation 3; MaxLengthValidation 50];
    mkRule "password" "Password"
      [RequiredValidation; MinLengthValidation 6; MaxLengthValidation 50] ].

(** The User struct as the README and the demo declare it: the json tag
    of Name is first_name. *)
Definition readmeUser (name password : string) : value :=
  VStruct [ mkField "Name" true "first_name" (VString name);
            mkField "Password" true "password" (VString password) ].

(** An uploaded-file handle with the given content type and size. *)
Definition upload (ctype : string) (size : Z) : value :=
  VFileHeader (Some (mkFileHeader "upload.bin" [("Content-Type", [ctype])] size)).

(** ** Vocabulary of the further properties *)

(** The item a rule adds when its field does not resolve. *)
Definition notFound (name : string) : ValidationErrorItem :=
  mkItem name ("field not found: " ++ name)%string.

(** The most items one rule can add: one per validator, or the single
    not-found item. *)
Definition capacity (rule : ValidationRule) : nat :=
  Nat.max 1 (List.length (Validations rule)).

(** Nothing that Validate does for the rule panics: the lookup of the
    field returns, and so does every validator of the rule on the value
    found. *)
Definition ruleSafe (data : value) (rule : ValidationRule) : Prop :=
  match getField data (RuleField rule) with
  | Returned (inl v) => Forall (fun f => returns (f v) = true) (Validations rule)
  | Returned (inr _) => True
  | Panicked _ => False
  end.

(** ValidateUser of the README and the demo program: the User struct
    (json tags first_name and password) against the two README rules. *)
Definition ValidateUser (name password : string) : outcome (list ValidationErrorItem) :=
  Validate (readmeUser name password) userRules.

(** What the README rule for password reports for a given password. *)
Definition passwordItems (password : string) : list ValidationErrorItem :=
  if String.eqb password EmptyString
  then [mkItem "password" "Field is required"]
  else if Z.of_nat (String.length password) <? 6
  then [mkItem "password" "Field must be at least 6 characters long"]
  else if 50 <? Z.of_nat (String.length password)
  then [mkItem "password" "Field must not exceed 50 characters"]
  else [].

(** Every byte of the string satisfies the predicate. *)
Fixpoint all_bytes (p : ascii -> bool) (s : string) : bool :=
  match s with
  | EmptyString => true
  | String c rest => p c && all_bytes p rest
  end.

(** A plus sign, a digit from 1 to 9, then between 1 and 14 digits. *)
Definition is_e164 (s : string) : bool :=
  match s with
  | String plus (String first rest) =>
      Ascii.eqb plus "+" && byte_in "1" "9" first && all_bytes is_digit rest
      && (1 <=? String.length rest)%nat && (String.length rest <=? 14)%nat
  | _ => false
  end.

(** The bytes the email pattern allows before and after the at sign. *)
Definition emailLocalByte (c : ascii) : bool := alpha c || digit c || one_of "._%+-" c.
Definition emailDomainByte (c : ascii) : bool := alpha c || digit c || one_of ".-" c.

(** The bytes the URL pattern allows anywhere in a URL. *)
Definition urlByte (c : ascii) : bool := word c || one_of "-_.,@?^=%&:/~+#" c.

(** Every class of the pattern lies within the predicate. *)
Fixpoint classes_within (p : ascii -> bool) (r : regex) : Prop :=
  match r with
  | Void | Eps => True
  | Class q => forall c, q c = true -> p c = true
  | Cat r1 r2 | Alt r1 r2 => classes_within p r1 /\ classes_within p r2
  | Star r1 => classes_within p r1
  end.

(* ================================================================== *)
(** * Properties *)

(** ** The matcher is a matcher *)

Section MatcherCorrect.

Local Open Scope string_scope.

Lemma append_empty (s1 s2 : string) :
  s1 ++ s2 = EmptyString -> s1 = EmptyString /\ s2 = EmptyString.
Proof.
  destruct s1; simpl; [auto|discriminate].
Qed.

Lemma lang_Void (s : string) : lang Void s <-> False.
Proof. split; [inversion 1|contradiction]. Qed.

Lemma lang_Eps (s : string) : lang Eps s <-> s = EmptyString.
Proof. split; [inversion 1; reflexivity|intros ->; constructor]. Qed.

Lemma lang_Cat (r1 r2 : regex) (s : string) :
  lang (Cat r1 r2) s <-> exists s1 s2, s = s1 ++ s2 /\ lang r1 s1 /\ lang r2 s2.
Proof.
  split.
  - inversion 1; subst; eauto.
  - intros (s1 & s2 & -> & H1 & H2). now constructor.
Qed.

Lemma lang_Alt (r1 r2 : regex) (s : string) :
  lang (Alt r1 r2) s <-> lang r1 s \/ lang r2 s.
Proof.
  split.
  - inversion 1; subst; auto.
  - intros [H|H]; [now apply lang_left|now apply lang_right].
Qed.

Lemma nullable_lang (r : regex) : nullable r = true <-> lang r EmptyString.
Proof.
  induction r as [| |p|r1 IH1 r2 IH2|r1 IH1 r2 IH2|r IH]; simpl.
  - rewrite lang_Void. split; [discriminate|contradiction].
  - rewrite lang_Eps. tauto.
  - split; [discriminate|inversion 1].
  - rewrite andb_true_iff, IH1, IH2, lang_Cat. split.
    + intros [H1 H2]. exists EmptyString, EmptyString. auto.
    + intros (s1 & s2 & E & H1 & H2).
      symmetry in E. apply append_empty in E as [-> ->]. auto.
  - rewrite orb_true_iff, IH1, IH2, lang_Alt. tauto.
  - split; [constructor|reflexivity].
Qed.

Lemma lang_cat (r1 r2 : regex) (s : string) : lang (cat r1 r2) s <-> lang (Cat r1 r2) s.
Proof.
  assert (HV1 : forall r, lang (Cat Void r) s <-> lang Void s).
  { intros r. rewrite lang_Cat, lang_Void. split; [|contradiction].
    intros (s1 & s2 & _ & H & _). now apply lang_Void in H. }
  assert (HV2 : forall r, lang (Cat r Void) s <-> lang Void s).
  { intros r. rewrite lang_Cat, lang_Void. split; [|contradiction].
    intros (s1 & s2 & _ & _ & H). now apply lang_Void in H. }
  assert (HE : forall r, lang (Cat Eps r) s <-> lang r s).
  { intros r. rewrite lang_Cat. split.
    - intros (s1 & s2 & -> & H1 & H2). apply lang_Eps in H1. now subst.
    - intros H. exists EmptyString, s. repeat split; [constructor|exact H]. }
  destruct r1, r2; simpl;
    rewrite ?HV1, ?HV2, ?HE; reflexivity.
Qed.

Lemma lang_alt (r1 r2 : regex) (s : string) : lang (alt r1 r2) s <-> lang (Alt r1 r2) s.
Proof.
  assert (HV1 : forall r, lang (Alt Void r) s <-> lang r s).
  { intros r. rewrite lang_Alt, lang_Void. tauto. }
  assert (HV2 : forall r, lang (Alt r Void) s <-> lang r s).
  { intros r. rewrite lang_Alt, lang_Void. tauto. }
  destruct r1, r2; simpl; rewrite ?HV1, ?HV2; reflexivity.
Qed.

Lemma lang_Star_cons (r : regex) (c : ascii) (s : string) :
  lang (Star r) (String c s) ->
  exists s1 s2, s = s1 ++ s2 /\ lang r (String c s1) /\ lang (Star r) s2.
Proof.
  intros H.
  remember (Star r) as r' eqn:Er. remember (String c s) as t eqn:Et.
  induction H as [| | | | | |r0 s1 s2 H1 _ H2 IH2]; try discriminate.
  inversion Er; subst r0.
  destruct s1 as [|c1 s1'].
  - simpl in Et. apply IH2; auto.
  - simpl in Et. inversion Et; subst. exists s1', s2. auto.
Qed.

Lemma deriv_lang (c : ascii) (r : regex) :
  forall s, lang (deriv c r) s <-> lang r (String c s).
Proof.
  induction r as [| |p|r1 IH1 r2 IH2|r1 IH1 r2 IH2|r IH]; intros s; simpl.
  - rewrite !lang_Void. tauto.
  - rewrite lang_Void, lang_Eps. split; [contradiction|discriminate].
  - destruct (p c) eqn:Hp.
    + rewrite lang_Eps. split.
      * intros ->. now constructor.
      * inversion 1; reflexivity.
    + rewrite lang_Void. split; [contradiction|].
      inversion 1; subst. congruence.
  - assert (Hhead : lang (cat (deriv c r1) r2) s <->
                    exists s1 s2, s = s1 ++ s2 /\ lang r1 (String c s1) /\ lang r2 s2).
    { rewrite lang_cat, lang_Cat. split.
      - intros (s1 & s2 & E & H1 & H2). apply IH1 in H1. eauto.
      - intros (s1 & s2 & E & H1 & H2). apply IH1 in H1. eauto. }
    rewrite (lang_Cat r1 r2 (String c s)).
    destruct (nullable r1) eqn:Hn.
    + rewrite lang_alt, lang_Alt, Hhead, IH2. split.
      * intros [(s1 & s2 & -> & H1 & H2)|H].
        -- exists (String c s1), s2. auto.
        -- exists EmptyString, (String c s). repeat split; [|exact H].
           now apply nullable_lang.
      * intros (s1 & s2 & E & H1 & H2). destruct s1 as [|c1 s1'].
        -- simpl in E. subst s2. now right.
        -- simpl in E. inversion E; subst. left. eauto.
    + rewrite Hhead. split.
      * intros (s1 & s2 & -> & H1 & H2). exists (String c s1), s2. auto.
      * intros (s1 & s2 & E & H1 & H2). destruct s1 as [|c1 s1'].
        -- apply nullable_lang in H1. congruence.
        -- simpl in E. inversion E; subst. eauto.
  - rewrite lang_alt, !lang_Alt, IH1, IH2. tauto.
  - rewrite lang_cat, lang_Cat. split.
    + intros (s1 & s2 & -> & H1 & H2). apply IH in H1.
      change (String c (s1 ++ s2)) with (String c s1 ++ s2).
      now constructor.
    + intros H. apply lang_Star_cons in H as (s1 & s2 & -> & H1 & H2).
      apply IH in H1. eauto.
Qed.

(** The matcher decides membership in the language of the pattern. *)
Lemma matches_lang (s : string) : forall r, matches r s = true <-> lang r s.
Proof.
  induction s as [|c rest IH]; intros r; simpl.
  - apply nullable_lang.
  - rewrite IH. apply deriv_lang.
Qed.

End MatcherCorrect.

(** ** The rule engine accumulates *)

Section Accumulation.

Variable data : value.

Lemma item_eqb_eq (a b : ValidationErrorItem) : item_eqb a b = true <-> a = b.
Proof.
  destruct a as [fa ma], b as [fb mb]; unfold item_eqb; simpl.
  rewrite andb_true_iff, !String.eqb_eq.
  split.
  - intros [-> ->]; reflexivity.
  - intros H; inversion H; auto.
Qed.

Lemma item_neqb (a : ValidationErrorItem) : a <> NoError -> negb (item_eqb a NoError) = true.
Proof.
  intros Hne. destruct (item_eqb a NoError) eqn:E; [|reflexivity].
  apply item_eqb_eq in E. contradiction.
Qed.

Lemma runValidations_acc (field : string) (v : value) (vs : list ValidationFunc) :
  forall errs,
    runValidations field v vs errs =
    (r <- runValidations field v vs [] ;; Returned (errs ++ r)).
Proof.
  induction vs as [|validation rest IH]; intros errs; simpl.
  - now rewrite app_nil_r.
  - destruct (validation v) as [e|p]; simpl; [|reflexivity].
    destruct (negb (item_eqb e NoError)).
    + rewrite (IH (errs ++ _)), (IH [_]).
      destruct (runValidations field v rest []); simpl; [|reflexivity].
      now rewrite <- app_assoc.
    + apply IH.
Qed.

Lemma runValidations_all (field : string) (v : value) (vs : list ValidationFunc)
    (rs : list ValidationErrorItem) :
  Forall2 (fun f r => f v = Returned r) vs rs ->
  runValidations field v vs [] = Returned (collect field rs).
Proof.
  induction 1 as [|f r vs' rs' Hf _ IH]; simpl; [reflexivity|].
  rewrite Hf; simpl. unfold collect; simpl.
  destruct (negb (item_eqb r NoError)); simpl.
  - rewrite runValidations_acc, IH. reflexivity.
  - exact IH.
Qed.

Lemma validateRule_acc (rule : ValidationRule) (errs : list ValidationErrorItem) :
  validateRule data errs rule =
  (r <- validateRule data [] rule ;; Returned (errs ++ r)).
Proof.
  unfold validateRule.
  destruct (getField data (RuleField rule)) as [[fieldValue|err]|p]; simpl; try reflexivity.
  apply runValidations_acc.
Qed.

Lemma validateRules_acc (rules : list ValidationRule) :
  forall errs,
    validateRules data rules errs =
    (r <- validateRules data rules [] ;; Returned (errs ++ r)).
Proof.
  induction rules as [|rule rest IH]; intros errs; simpl.
  - now rewrite app_nil_r.
  - rewrite validateRule_acc.
    destruct (validateRule data [] rule) as [er|p]; simpl; [|reflexivity].
    rewrite (IH (errs ++ er)), (IH er).
    destruct (validateRules data rest []); simpl; [|reflexivity].
    now rewrite app_assoc.
Qed.

Lemma validateRules_app (pre post : list ValidationRule) :
  forall errs,
    validateRules data (pre ++ post) errs =
    (e <- validateRules data pre errs ;; validateRules data post e).
Proof.
  induction pre as [|rule rest IH]; intros errs; simpl; [reflexivity|].
  destruct (validateRule data errs rule); simpl; [apply IH|reflexivity].
Qed.

(** A rule in the middle of a rule-set adds its own items between those
    of the rules before it and those of the rules after it. *)
Lemma Validate_context (pre post : list ValidationRule) (rule : ValidationRule)
    (e1 er e2 : list ValidationErrorItem) :
  Validate data pre = Returned e1 ->
  validateRule data [] rule = Returned er ->
  Validate data post = Returned e2 ->
  Validate data (pre ++ rule :: post) = Returned (e1 ++ er ++ e2).
Proof.
  unfold Validate. intros Hpre Hrule Hpost.
  rewrite validateRules_app, Hpre. simpl.
  rewrite validateRule_acc, Hrule. simpl.
  rewrite validateRules_acc, Hpost. simpl.
  now rewrite <- app_assoc.
Qed.

End Accumulation.

(** ** Rule engine: order and no short-circuit *)

(** C1. When the field of a rule resolves to a value v, Validate runs
    every validator of the rule on v in the declared order and never stops
    at a failure: the rule contributes exactly the failing results, in
    order, each under the rule's field name, between the items of the
    rules before and after it.  In particular, for validators A, B, C
    where A and C fail on v and B passes, the rule contributes A's item,
    then C's item, and nothing for B. *)
Theorem Validate_runs_all_validators_in_order
    (data : value) (pre post : list ValidationRule) (rule : ValidationRule)
    (v : value) (e1 e2 : list ValidationErrorItem) :
  getField data (RuleField rule) = Returned (inl v) ->
  Validate data pre = Returned e1 ->
  Validate data post = Returned e2 ->
  (forall rs,
      Forall2 (fun f r => f v = Returned r) (Validations rule) rs ->
      Validate data (pre ++ rule :: post)
      = Returned (e1 ++ collect (RuleField rule) rs ++ e2))
  /\
  (forall (A B C : ValidationFunc) (a c : ValidationErrorItem),
      Validations rule = [A; B; C] ->
      A v = Returned a -> a <> NoError ->
      B v = Returned NoError ->
      C v = Returned c -> c <> NoError ->
      Validate data (pre ++ rule :: post)
      = Returned (e1 ++ [mkItem (RuleField rule) (Message a);
                         mkItem (RuleField rule) (Message c)] ++ e2)).
Proof.
  intros Hfield Hpre Hpost.
  assert (General : forall rs,
      Forall2 (fun f r => f v = Returned r) (Validations rule) rs ->
      Validate data (pre ++ rule :: post)
      = Returned (e1 ++ collect (RuleField rule) rs ++ e2)).
  { intros rs Hrs. apply Validate_context; trivial.
    unfold validateRule. rewrite Hfield. simpl.
    now apply runValidations_all. }
  split; [exact General|].
  intros A B C a c Hvs HA Ha HB HC Hc.
  rewrite (General [a; NoError; c]).
  - unfold collect. simpl.
    rewrite (item_neqb a Ha), (item_neqb c Hc). reflexivity.
  - rewrite Hvs. repeat constructor; assumption.
Qed.

Lemma Validate_runs_all_validators_in_order_witness :
  Validate (user "ab" "123456")
    [mkRule "name" "Name"
       [MinLengthValidation 3; RequiredValidation; MinLengthValidation 5]]
  = Returned [mkItem "name" "Field must be at least 3 characters long";
              mkItem "name" "Field must be at least 5 characters long"].
Proof.
  apply (proj2 (Validate_runs_all_validators_in_order
                  (user "ab" "123456") [] []
                  (mkRule "name" "Name"
                     [MinLengthValidation 3; RequiredValidation; MinLengthValidation 5])
                  (VString "ab") [] [] eq_refl eq_refl eq_refl)
               (MinLengthValidation 3) RequiredValidation (MinLengthValidation 5)
               (mkItem EmptyString "Field must be at least 3 characters long")
               (mkItem EmptyString "Field must be at least 5 characters long")).
  - reflexivity.
  - reflexivity.
  - discriminate.
  - reflexivity.
  - reflexivity.
  - discriminate.
Defined.

(** ** Rule engine: a field that does not resolve *)

Lemma lookupTag_no_match (fields : list (StructField value)) (field : string) :
  existsb (fun f => String.eqb (jsonTag f) field) fields = false ->
  lookupTag fields field = Returned VNil.
Proof.
  induction fields as [|f rest IH]; simpl; [reflexivity|].
  intros H. apply orb_false_iff in H as [Hf Hrest].
  rewrite Hf. auto.
Qed.

Lemma getField_no_match (data : value) (field : string) :
  hasTag data field = false ->
  getField data field = Returned (inr ("field not found: " ++ field)%string).
Proof.
  unfold hasTag, getField, getFieldByJsonTag. intros H.
  destruct (indirect data) as [[]|]; try reflexivity.
  rewrite lookupTag_no_match by exact H. reflexivity.
Qed.

(** C2. For a rule whose field name is the json tag of no field of the
    record, Validate appends exactly one item, with the rule's field name
    and the message field not found: name, whatever the validators of the
    rule are (none of them is run, so even validators that would panic
    change nothing), and goes on with the rules that follow. *)
Theorem Validate_field_not_found
    (data : value) (pre post : list ValidationRule)
    (name description : string) (validations : list ValidationFunc)
    (e1 e2 : list ValidationErrorItem) :
  hasTag data name = false ->
  Validate data pre = Returned e1 ->
  Validate data post = Returned e2 ->
  Validate data (pre ++ mkRule name description validations :: post)
  = Returned (e1 ++ [mkItem name ("field not found: " ++ name)%string] ++ e2).
Proof.
  intros Hno Hpre Hpost.
  apply Validate_context; trivial.
  unfold validateRule; simpl.
  rewrite (getField_no_match data name Hno). reflexivity.
Qed.

Lemma Validate_field_not_found_witness :
  Validate (user "Jo" "123456")
    (mkRule "first_name" "Name" [fun _ => Panicked InterfaceConversion] :: userRules)
  = Returned [mkItem "first_name" "field not found: first_name";
              mkItem "name" "Field must be at least 3 characters long"].
Proof.
  apply (Validate_field_not_found (user "Jo" "123456") [] userRules
           "first_name" "Name" [fun _ => Panicked InterfaceConversion]
           [] [mkItem "name" "Field must be at least 3 characters long"]).
  - reflexivity.
  - reflexivity.
  - reflexivity.
Defined.

(** ** Validators on an absent value *)

(** C3. On an absent value, that is nil or the empty string, every
    validator of the library other than the required-check returns pass
    (the empty item), whatever its configuration; the required-check
    fails. *)
Theorem absent_value_passes_except_Required (v : value) :
  v = VNil \/ v = VString EmptyString ->
  (forall minLength, MinLengthValidation minLength v = pass) /\
  (forall maxLength, MaxLengthValidation maxLength v = pass) /\
  EmailValidation v = pass /\
  PhoneValidation v = pass /\
  URLValidation v = pass /\
  StringValidation v = pass /\
  NumericValidation v = pass /\
  DateValidation v = pass /\
  ImageValidation v = pass /\
  (forall maxSize, FileSizeValidation maxSize v = pass) /\
  ImageMimeValidation v = pass /\
  FileValidation v = pass /\
  (forall validTypes, FileTypeValidation v validTypes = pass) /\
  RequiredValidation v = failure "Field is required".
Proof.
  intros [-> | ->]; repeat split; reflexivity.
Qed.

Lemma absent_value_passes_except_Required_witness :
  PhoneValidation (VString EmptyString) = pass /\
  RequiredValidation (VString EmptyString) = failure "Field is required".
Proof.
  pose proof (absent_value_passes_except_Required (VString EmptyString)
                (or_intror eq_refl)) as H.
  split.
  - exact (proj1 (proj2 (proj2 (proj2 H)))).
  - exact (proj2 (proj2 (proj2 (proj2 (proj2 (proj2 (proj2
            (proj2 (proj2 (proj2 (proj2 (proj2 (proj2 H))))))))))))).
Defined.

(** ** The record with two empty strings *)

(** C4, as stated, fails: validating the record with name and password
    both empty against the README rule-set does not give four items. *)
Lemma empty_user_four_items_counterexample :
  ~ (exists errs,
        Validate (user EmptyString EmptyString) userRules = Returned errs /\
        List.length errs = 4%nat).
Proof.
  intros [errs [H Hlen]].
  vm_compute in H. inversion H; subst errs. discriminate Hlen.
Qed.

(** C4, amended. Validating the record with name and password both empty
    against the README rule-set gives two items, one per field, each the
    required-check message (Field is required in the code); MinLength
    and MaxLength both treat the empty string as absent and pass, so
    neither contributes. *)
Theorem empty_user_two_items :
  Validate (user EmptyString EmptyString) userRules
  = Returned [mkItem "name" "Field is required";
              mkItem "password" "Field is required"]
  /\ MinLengthValidation 3 (VString EmptyString) = pass
  /\ MinLengthValidation 6 (VString EmptyString) = pass
  /\ MaxLengthValidation 50 (VString EmptyString) = pass.
Proof.
  repeat split; reflexivity.
Qed.

(** ** Panics *)

(** C5 does not hold of the code: PhoneValidation asserts value.(string)
    without the comma-ok form, so on a present value that is not a string
    (here the int 42) it panics, where EmailValidation and URLValidation,
    which use the checked form, return. *)
Theorem PhoneValidation_panics_on_int :
  PhoneValidation (VInt TInt 42) = Panicked InterfaceConversion /\
  EmailValidation (VInt TInt 42) = pass /\
  URLValidation (VInt TInt 42) = failure "Value is not a string".
Proof.
  repeat split; reflexivity.
Qed.

(** ** Dates *)

Lemma daysIn_at_most_31 (m year : Z) : GoTime.daysIn m year <= 31.
Proof.
  unfold GoTime.daysIn.
  destruct ((m =? 2) && GoTime.isLeap year); [lia|].
  destruct (m =? 2); [lia|].
  destruct ((m =? 4) || (m =? 6) || (m =? 9) || (m =? 11)); lia.
Qed.

(** What time.Parse accepts is a day of the calendar. *)
Lemma Parse_calendar_date (s : string) (d : GoTime.date) :
  GoTime.Parse s = Some d ->
  1 <= GoTime.Month d <= 12 /\
  1 <= GoTime.Day d <= GoTime.daysIn (GoTime.Month d) (GoTime.Year d).
Proof.
  unfold GoTime.Parse.
  destruct (GoTime.getyear s) as [[year s1]|]; [|discriminate].
  destruct (GoTime.skip_dash s1) as [s2|]; [|discriminate].
  destruct (GoTime.getnum2 s2) as [[month s3]|]; [|discriminate].
  destruct ((month <=? 0) || (12 <? month)) eqn:Hm; [discriminate|].
  destruct (GoTime.skip_dash s3) as [s4|]; [|discriminate].
  destruct (GoTime.getnum2 s4) as [[day s5]|]; [|discriminate].
  destruct (negb (String.eqb s5 EmptyString)); [discriminate|].
  destruct ((day <? 1) || (GoTime.daysIn month year <? day)) eqn:Hd; [discriminate|].
  intros H; inversion H; subst d; simpl.
  apply orb_false_iff in Hm as [Hm1 Hm2], Hd as [Hd1 Hd2].
  lia.
Qed.

Lemma DateValidation_shape_then_parse (s : string) :
  MatchString dateRegex s = true ->
  GoTime.Parse s = None ->
  DateValidation (VString s) = failure "Invalid date".
Proof.
  intros Hshape Hparse. unfold DateValidation.
  destruct (absent (VString s)) eqn:Habs.
  - unfold absent in Habs; simpl in Habs.
    apply String.eqb_eq in Habs; subst s. discriminate Hshape.
  - simpl. rewrite Hshape, Hparse. reflexivity.
Qed.

Lemma DateValidation_never_Invalid_day (v : value) :
  DateValidation v <> failure "Invalid day".
Proof.
  unfold DateValidation.
  destruct (absent v); [discriminate|].
  destruct (as_string v) as [dateStr|]; [|discriminate].
  destruct (negb (MatchString dateRegex dateStr)); [discriminate|].
  destruct (GoTime.Parse dateStr) as [date|] eqn:Hparse; [|discriminate].
  destruct ((GoTime.Year date <? 1) || (9999 <? GoTime.Year date)); [discriminate|].
  destruct ((GoTime.Month date <? 1) || (12 <? GoTime.Month date)); [discriminate|].
  destruct ((GoTime.Day date <? 1) || (31 <? GoTime.Day date)) eqn:Hday; [|discriminate].
  exfalso.
  pose proof (Parse_calendar_date _ _ Hparse) as [_ Hd].
  pose proof (daysIn_at_most_31 (GoTime.Month date) (GoTime.Year date)).
  apply orb_true_iff in Hday as [Hday|Hday]; lia.
Qed.

(** C6. The Date validator rejects 2023-02-30 with the message Invalid
    date (the spec's invalid date, up to the case of the first letter):
    the string has the YYYY-MM-DD shape, and it is time.Parse that refuses
    it.  The parse is what rejects days that are not in the calendar: any
    string of the right shape that does not parse gets this message, what
    does parse has its day within its month, and the 1 to 31 guard after
    the parse never rejects anything. *)
Theorem DateValidation_rejects_2023_02_30 :
  MatchString dateRegex "2023-02-30" = true /\
  GoTime.Parse "2023-02-30" = None /\
  DateValidation (VString "2023-02-30") = failure "Invalid date" /\
  ToLower "Invalid date" = "invalid date" /\
  (forall s, MatchString dateRegex s = true -> GoTime.Parse s = None ->
             DateValidation (VString s) = failure "Invalid date") /\
  (forall s d, GoTime.Parse s = Some d ->
               1 <= GoTime.Day d <= GoTime.daysIn (GoTime.Month d) (GoTime.Year d)) /\
  (forall v, DateValidation v <> failure "Invalid day").
Proof.
  split; [reflexivity|].
  split; [reflexivity|].
  split; [reflexivity|].
  split; [reflexivity|].
  split; [exact DateValidation_shape_then_parse|].
  split; [|exact DateValidation_never_Invalid_day].
  intros s d H. exact (proj2 (Parse_calendar_date s d H)).
Qed.

Lemma DateValidation_rejects_2023_02_30_witness :
  DateValidation (VString "2023-04-31") = failure "Invalid date" /\
  1 <= 29 <= GoTime.daysIn 2 2024.
Proof.
  pose proof DateValidation_rejects_2023_02_30 as [_ [_ [_ [_ [Hreject [Hday _]]]]]].
  split.
  - apply (Hreject "2023-04-31"); reflexivity.
  - exact (Hday "2024-02-29" (GoTime.mkDate 2024 2 29) eq_refl).
Defined.

(** ** Values of the wrong type *)

Lemma present_not_absent (v : value) :
  v <> VNil -> v <> VString EmptyString -> absent v = false.
Proof.
  intros Hnil Hempty. destruct v; try reflexivity.
  - contradiction.
  - destruct s; [contradiction|reflexivity].
Qed.

Lemma not_a_file (v : value) :
  (forall file, v <> VFileHeader file) -> as_file v = None.
Proof.
  intros H. destruct v; try reflexivity. now destruct (H file).
Qed.

Lemma not_a_string (v : value) :
  (forall s, v <> VString s) -> as_string v = None.
Proof.
  intros H. destruct v; try reflexivity. now destruct (H s).
Qed.

(** C7. On a value that is neither nil, nor the empty string, nor an
    uploaded-file handle (a pointer to multipart.FileHeader), each of
    ImageValidation, ImageMimeValidation, FileValidation,
    FileSizeValidation and FileTypeValidation fails with the message
    Invalid file format (the spec's invalid file format, up to the case
    of the first letter); none passes. *)
Theorem file_validators_reject_other_values (v : value) :
  v <> VNil ->
  v <> VString EmptyString ->
  (forall file, v <> VFileHeader file) ->
  ImageValidation v = failure "Invalid file format" /\
  ImageMimeValidation v = failure "Invalid file format" /\
  FileValidation v = failure "Invalid file format" /\
  (forall maxSize, FileSizeValidation maxSize v = failure "Invalid file format") /\
  (forall validTypes, FileTypeValidation v validTypes = failure "Invalid file format") /\
  ToLower "Invalid file format" = "invalid file format".
Proof.
  intros Hnil Hempty Hfile.
  pose proof (present_not_absent v Hnil Hempty) as Habs.
  pose proof (not_a_file v Hfile) as Hno.
  unfold ImageValidation, ImageMimeValidation, FileValidation,
    FileSizeValidation, FileTypeValidation.
  rewrite Habs, Hno.
  repeat split; reflexivity.
Qed.

Lemma file_validators_reject_other_values_witness :
  FileValidation (VString "avatar.png") = failure "Invalid file format" /\
  FileSizeValidation 1000 (VString "avatar.png") = failure "Invalid file format".
Proof.
  assert (H1 : VString "avatar.png" <> VNil) by discriminate.
  assert (H2 : VString "avatar.png" <> VString EmptyString) by discriminate.
  assert (H3 : forall file, VString "avatar.png" <> VFileHeader file)
    by (intros file; discriminate).
  pose proof (file_validators_reject_other_values (VString "avatar.png") H1 H2 H3)
    as [_ [_ [HF [HS _]]]].
  split; [exact HF | exact (HS 1000)].
Defined.

(** C8. On a value that is not nil and not of type string, the Email
    validator passes: its checked type assertion fails and it returns the
    empty item.  The URL validator, in the same situation, fails with
    Value is not a string. *)
Theorem EmailValidation_passes_non_strings (v : value) :
  v <> VNil ->
  (forall s, v <> VString s) ->
  EmailValidation v = pass /\
  URLValidation v = failure "Value is not a string".
Proof.
  intros Hnil Hstr.
  pose proof (present_not_absent v Hnil (Hstr EmptyString)) as Habs.
  pose proof (not_a_string v Hstr) as Hno.
  unfold EmailValidation, URLValidation.
  rewrite Habs, Hno. split; reflexivity.
Qed.

Lemma EmailValidation_passes_non_strings_witness :
  EmailValidation (VInt TInt 7) = pass /\
  URLValidation (VInt TInt 7) = failure "Value is not a string".
Proof.
  apply (EmailValidation_passes_non_strings (VInt TInt 7)).
  - discriminate.
  - intros s; discriminate.
Defined.

(** ** A field that is present and holds nil *)

Lemma lookupTag_first_match (before after : list (StructField value))
    (f : StructField value) (name : string) :
  existsb (fun g => String.eqb (jsonTag g) name) before = false ->
  jsonTag f = name ->
  exported f = true ->
  lookupTag (before ++ f :: after) name = Returned (fieldValue f).
Proof.
  intros Hbefore Htag Hexp.
  induction before as [|g rest IH]; simpl.
  - rewrite Htag, String.eqb_refl, Hexp. reflexivity.
  - simpl in Hbefore. apply orb_false_iff in Hbefore as [Hg Hrest].
    rewrite Hg. auto.
Qed.

(** C9. When the record is a struct in which the field that carries the
    rule's name as json tag (the first such field, an exported one) holds
    a nil interface, Validate reports field not found: name for the rule,
    exactly as it does for the struct without that field: getField takes
    the nil it reads from the field for the resolver's not-found answer. *)
Theorem nil_field_reported_as_not_found
    (data : value) (before after : list (StructField value))
    (f : StructField value) (pre post : list ValidationRule)
    (name description : string) (validations : list ValidationFunc)
    (e1 e2 : list ValidationErrorItem) :
  indirect data = Some (VStruct (before ++ f :: after)) ->
  existsb (fun g => String.eqb (jsonTag g) name) before = false ->
  jsonTag f = name ->
  exported f = true ->
  fieldValue f = VNil ->
  Validate data pre = Returned e1 ->
  Validate data post = Returned e2 ->
  hasTag data name = true /\
  getField data name = Returned (inr ("field not found: " ++ name)%string) /\
  getField data name = getField (VStruct before) name /\
  Validate data (pre ++ mkRule name description validations :: post)
  = Returned (e1 ++ [mkItem name ("field not found: " ++ name)%string] ++ e2).
Proof.
  intros Hdata Hbefore Htag Hexp Hnil Hpre Hpost.
  assert (Hget : getField data name
                 = Returned (inr ("field not found: " ++ name)%string)).
  { unfold getField, getFieldByJsonTag. rewrite Hdata.
    rewrite (lookupTag_first_match before after f name Hbefore Htag Hexp), Hnil.
    reflexivity. }
  split; [|split; [exact Hget|split]].
  - unfold hasTag. rewrite Hdata, existsb_app. simpl.
    rewrite Htag, String.eqb_refl. apply orb_true_r.
  - rewrite Hget. symmetry. apply getField_no_match.
    unfold hasTag. simpl. exact Hbefore.
  - apply Validate_context; trivial.
    unfold validateRule; simpl. rewrite Hget. reflexivity.
Qed.

Lemma nil_field_reported_as_not_found_witness :
  Validate
    (VPtr (Some (VStruct [ mkField "Name" true "name" (VString "Jo");
                           mkField "Extra" true "extra" VNil ])))
    [mkRule "extra" "Extra" [RequiredValidation]]
  = Returned [mkItem "extra" "field not found: extra"].
Proof.
  apply (nil_field_reported_as_not_found
           (VPtr (Some (VStruct [ mkField "Name" true "name" (VString "Jo");
                                  mkField "Extra" true "extra" VNil ])))
           [mkField "Name" true "name" (VString "Jo")] []
           (mkField "Extra" true "extra" VNil) [] []
           "extra" "Extra" [RequiredValidation] [] []);
    reflexivity.
Defined.

(** ** The prefix of the content type *)

Lemma ToLower_length (s : string) : String.length (ToLower s) = String.length s.
Proof.
  induction s as [|c rest IH]; simpl; congruence.
Qed.

Lemma prefix_cons (a b : ascii) (s1 s2 : string) :
  String.prefix (String a s1) (String b s2) = true -> a = b /\ String.prefix s1 s2 = true.
Proof.
  simpl. destruct (ascii_dec a b) as [->|]; [auto|discriminate].
Qed.

Lemma prefix_same_length (pre : string) :
  forall p rest,
    String.length p = String.length pre ->
    String.prefix pre (p ++ rest) = true ->
    p = pre.
Proof.
  induction pre as [|a pre' IH]; intros [|b p'] rest Hlen Hpre;
    simpl in Hlen; try discriminate; [reflexivity|].
  change ((String b p' ++ rest)%string) with (String b (p' ++ rest)) in Hpre.
  apply prefix_cons in Hpre as [-> Hpre].
  f_equal. apply (IH p' rest); [lia|exact Hpre].
Qed.

Lemma prefix_app (pre rest : string) : String.prefix pre (pre ++ rest) = true.
Proof.
  induction pre as [|a pre' IH]; simpl; [now destruct rest|].
  destruct (ascii_dec a a); [exact IH|contradiction].
Qed.

Lemma substring_whole (s : string) : String.substring 0 (String.length s) s = s.
Proof.
  induction s as [|c rest IH]; simpl; [reflexivity|]. now rewrite IH.
Qed.

Lemma substring_skip (pre rest : string) :
  String.substring (String.length pre) (String.length rest) (pre ++ rest) = rest.
Proof.
  induction pre as [|a pre' IH]; simpl; [apply substring_whole|exact IH].
Qed.

Lemma app_length_string (s t : string) :
  String.length (s ++ t) = (String.length s + String.length t)%nat.
Proof.
  induction s as [|c rest IH]; simpl; congruence.
Qed.

Lemma TrimPrefix_strips (pre rest : string) : TrimPrefix (pre ++ rest) pre = rest.
Proof.
  unfold TrimPrefix, HasPrefix. rewrite prefix_app, app_length_string.
  replace (String.length pre + String.length rest - String.length pre)%nat
    with (String.length rest) by lia.
  apply substring_skip.
Qed.

(** A prefix that spells application/ in another case is left in place. *)
Lemma TrimPrefix_keeps_other_case (p rest : string) :
  ToLower p = "application/" ->
  p <> "application/" ->
  TrimPrefix (p ++ rest) "application/" = (p ++ rest)%string.
Proof.
  intros Hlow Hne. unfold TrimPrefix, HasPrefix.
  destruct (String.prefix "application/" (p ++ rest)) eqn:Hpre; [|reflexivity].
  exfalso. apply Hne.
  apply (prefix_same_length "application/" p rest); [|exact Hpre].
  rewrite <- (ToLower_length p), Hlow. reflexivity.
Qed.

(** C10. FileTypeValidation trims the prefix application/ from the
    content type before it lower-cases it, and the trim compares bytes:
    for a handle whose content type starts with application/ spelled in
    another case, nothing is trimmed, and the type checked against
    validTypes still carries the prefix, so a list that holds only the
    bare subtype refuses it with File type is not allowed (the spec's
    file type is not allowed, up to the case of the first letter), while
    the same subtype behind the lower-case prefix passes.  Content type
    Application/PDF against the list [pdf] fails, application/PDF
    passes.  Content types are ASCII text, on which ToLower is modelled. *)
Theorem FileTypeValidation_prefix_is_case_sensitive
    (fh : FileHeader) (p rest : string) :
  contentType fh = (p ++ rest)%string ->
  isASCII (contentType fh) = true ->
  ToLower p = "application/" ->
  p <> "application/" ->
  TrimPrefix (contentType fh) "application/" = contentType fh /\
  FileTypeValidation (VFileHeader (Some fh)) [ToLower rest]
  = failure "File type is not allowed" /\
  (forall fh', contentType fh' = ("application/" ++ rest)%string ->
               FileTypeValidation (VFileHeader (Some fh')) [ToLower rest] = pass) /\
  FileTypeValidation (upload "Application/PDF" 2048) ["pdf"]
  = failure "File type is not allowed" /\
  FileTypeValidation (upload "application/PDF" 2048) ["pdf"] = pass /\
  ToLower "File type is not allowed" = "file type is not allowed".
Proof.
  intros Hct _ Hlow Hne.
  pose proof (TrimPrefix_keeps_other_case p rest Hlow Hne) as Hkeep.
  split; [rewrite Hct; exact Hkeep|].
  split; [|split; [|repeat split; reflexivity]].
  - unfold FileTypeValidation; simpl. rewrite Hct, Hkeep. simpl.
    destruct (String.eqb (ToLower rest) (ToLower (p ++ rest))) eqn:E; [|reflexivity].
    exfalso. apply String.eqb_eq in E.
    apply (f_equal String.length) in E.
    rewrite !ToLower_length, app_length_string in E.
    rewrite <- (ToLower_length p), Hlow in E. simpl in E. lia.
  - intros fh' Hct'. unfold FileTypeValidation; simpl.
    rewrite Hct', TrimPrefix_strips. simpl.
    rewrite String.eqb_refl. reflexivity.
Qed.

Lemma FileTypeValidation_prefix_is_case_sensitive_witness :
  FileTypeValidation (upload "APPLICATION/Zip" 10) ["zip"]
  = failure "File type is not allowed" /\
  FileTypeValidation (upload "application/Zip" 10) ["zip"] = pass.
Proof.
  assert (Hne : "APPLICATION/" <> "application/") by discriminate.
  pose proof (FileTypeValidation_prefix_is_case_sensitive
                (mkFileHeader "upload.bin" [("Content-Type", ["APPLICATION/Zip"])] 10)
                "APPLICATION/" "Zip" eq_refl eq_refl eq_refl Hne)
    as [_ [Hfail [Hpass _]]].
  split.
  - exact Hfail.
  - exact (Hpass (mkFileHeader "upload.bin" [("Content-Type", ["application/Zip"])] 10)
             eq_refl).
Defined.

(** ** Further inputs on which a validator panics *)

(** The unchecked assertion value.(string) under the String kind panics
    for a value of a defined string type, and the validators that read
    through the file pointer panic on a nil pointer. *)
Lemma validators_panicking_inputs :
  RequiredValidation (VNamedString "Name" "Jo") = Panicked InterfaceConversion /\
  MinLengthValidation 3 (VNamedString "Name" "Jo") = Panicked InterfaceConversion /\
  NumericValidation (VNamedString "Code" "12") = Panicked InterfaceConversion /\
  ImageValidation (VFileHeader None) = Panicked NilPointerDereference /\
  FileSizeValidation 1000 (VFileHeader None) = Panicked NilPointerDereference /\
  FileValidation (VFileHeader None) = pass.
Proof.
  repeat split; reflexivity.
Qed.

(** ** Scenarios of the specification, run on the model *)

Example scenario_short_name :
  Validate (user "Jo" "123456") userRules
  = Returned [mkItem "name" "Field must be at least 3 characters long"].
Proof. reflexivity. Qed.

Example scenario_valid_user :
  Validate (user "John" "123456") userRules = Returned [].
Proof. reflexivity. Qed.

Example scenario_readme_struct :
  Validate (readmeUser "John" "123456") userRules
  = Returned [mkItem "name" "field not found: name"]
  /\ Validate (readmeUser EmptyString EmptyString) userRules
  = Returned [mkItem "name" "field not found: name";
              mkItem "password" "Field is required"].
Proof. split; reflexivity. Qed.

Example scenario_email :
  EmailValidation (VString "not-an-email") = failure "Field must be a valid email address"
  /\ EmailValidation (VString "a@b.co") = pass.
Proof. split; reflexivity. Qed.

Example scenario_phone :
  PhoneValidation (VString "+8801712345678") = pass
  /\ PhoneValidation (VString "01712345678") = failure "Invalid phone number format".
Proof. split; reflexivity. Qed.

Example scenario_url :
  URLValidation (VString "https://example.com/a/b?x=1") = pass
  /\ URLValidation (VString "ftp://example.com") = failure "Value is not a valid URL".
Proof. split; reflexivity. Qed.

Example scenario_image_gif :
  ImageMimeValidation (upload "image/gif" 10) = failure "File must be a PNG, JPG, JPEG or SVG"
  /\ ImageValidation (upload "image/gif" 10) = pass.
Proof. split; reflexivity. Qed.

Example scenario_file_size :
  FileSizeValidation 1000 (upload "image/png" 1500)
  = failure "File size must be less than 1000 bytes"
  /\ FileSizeValidation 1000 (upload "image/png" 500) = pass.
Proof. split; reflexivity. Qed.

(* ================================================================== *)
(** * Further properties of the rule engine and the resolver *)

(** X1. Validating against two rule-sets put end to end gives the items
    of the first followed by the items of the second; a panic in either
    is the panic of the whole. *)
Theorem Validate_concat (data : value) (rs1 rs2 : list ValidationRule) :
  Validate data (rs1 ++ rs2)
  = (e1 <- Validate data rs1 ;; e2 <- Validate data rs2 ;; Returned (e1 ++ e2)).
Proof.
  unfold Validate. rewrite validateRules_app.
  destruct (validateRules data rs1 []) as [e1|p]; simpl; [|reflexivity].
  apply validateRules_acc.
Qed.

Lemma runValidations_shape (field : string) (v : value) (vs : list ValidationFunc) :
  forall errs,
    runValidations field v vs [] = Returned errs ->
    Forall (fun e => Field e = field) errs /\ (List.length errs <= List.length vs)%nat.
Proof.
  induction vs as [|f rest IH]; simpl; intros errs H.
  - inversion H; subst. split; [constructor|apply Nat.le_refl].
  - destruct (f v) as [e|p]; simpl in H; [|discriminate].
    destruct (negb (item_eqb e NoError)).
    + rewrite runValidations_acc in H.
      destruct (runValidations field v rest []) as [more|p]; simpl in H; [|discriminate].
      inversion H; subst. destruct (IH more eq_refl) as [HF HL].
      split; [constructor; [reflexivity|exact HF]|simpl; lia].
    + destruct (IH errs H) as [HF HL]. split; [exact HF|lia].
Qed.

Lemma validateRule_shape (data : value) (rule : ValidationRule) (errs : list ValidationErrorItem) :
  validateRule data [] rule = Returned errs ->
  Forall (fun e => Field e = RuleField rule) errs /\ (List.length errs <= capacity rule)%nat.
Proof.
  unfold validateRule, capacity.
  destruct (getField data (RuleField rule)) as [[v|err]|p]; intros H; simpl in H.
  - apply runValidations_shape in H as [HF HL]. split; [exact HF|lia].
  - inversion H; subst. split; [repeat constructor|].
    change (List.length [mkItem (RuleField rule) err]) with 1%nat. lia.
  - discriminate.
Qed.

(** X2. Every item Validate returns carries the field name of one of the
    rules (a validator cannot put a name of its own on an item), and there
    are at most as many items as the rules can add: one per validator, one
    for a rule whose field is not found. *)
Theorem Validate_items_belong_to_rules
    (data : value) (rules : list ValidationRule) (errs : list ValidationErrorItem) :
  Validate data rules = Returned errs ->
  Forall (fun e => In (Field e) (map RuleField rules)) errs /\
  (List.length errs <= list_sum (map capacity rules))%nat.
Proof.
  unfold Validate. revert errs.
  induction rules as [|rule rest IH]; simpl; intros errs H.
  - inversion H; subst. split; [constructor|apply Nat.le_refl].
  - destruct (validateRule data [] rule) as [er|p] eqn:Hrule; simpl in H; [|discriminate].
    rewrite validateRules_acc in H.
    destruct (validateRules data rest []) as [more|p]; simpl in H; [|discriminate].
    inversion H; subst.
    destruct (validateRule_shape data rule er Hrule) as [HF HL].
    destruct (IH more eq_refl) as [HF' HL'].
    split.
    + apply Forall_app. split.
      * eapply Forall_impl; [|exact HF]. simpl. intros e ->. now left.
      * eapply Forall_impl; [|exact HF']. simpl. intros e He. now right.
    + rewrite length_app. lia.
Qed.

Lemma Validate_items_belong_to_rules_witness :
  Forall (fun e => In (Field e) ["name"; "password"])
         [mkItem "name" "Field is required"; mkItem "password" "Field is required"]
  /\ (2 <= 6)%nat.
Proof.
  exact (Validate_items_belong_to_rules (user EmptyString EmptyString) userRules
           [mkItem "name" "Field is required"; mkItem "password" "Field is required"]
           eq_refl).
Defined.

Lemma runValidations_returns (field : string) (v : value) (vs : list ValidationFunc) :
  forall errs,
    returns (runValidations field v vs errs) = true <->
    Forall (fun f => returns (f v) = true) vs.
Proof.
  induction vs as [|f rest IH]; simpl; intros errs.
  - split; [constructor|reflexivity].
  - destruct (f v) as [e|p] eqn:Hf; simpl.
    + destruct (negb (item_eqb e NoError)); rewrite IH; split.
      * intros H. constructor; [now rewrite Hf|exact H].
      * inversion 1; assumption.
      * intros H. constructor; [now rewrite Hf|exact H].
      * inversion 1; assumption.
    + split; [discriminate|]. inversion 1 as [|? ? Hbad]. rewrite Hf in Hbad. discriminate.
Qed.

(** X3. Validate returns (does not panic) exactly when, for every rule,
    the lookup of the field returns and every validator of the rule
    returns on the value found: since all validators of all rules are run,
    one panicking validator anywhere makes the whole call panic. *)
Theorem Validate_returns_iff (data : value) (rules : list ValidationRule) :
  returns (Validate data rules) = true <-> Forall (ruleSafe data) rules.
Proof.
  unfold Validate. generalize (@nil ValidationErrorItem) as errs.
  induction rules as [|rule rest IH]; simpl; intros errs.
  - split; [constructor|reflexivity].
  - assert (Hrule : forall es, returns (validateRule data es rule) = true <-> ruleSafe data rule).
    { intros es. unfold validateRule, ruleSafe.
      destruct (getField data (RuleField rule)) as [[v|err]|p]; simpl.
      - apply runValidations_returns.
      - tauto.
      - split; [discriminate|contradiction]. }
    destruct (validateRule data errs rule) as [es'|p] eqn:Hv; simpl.
    + rewrite IH. split.
      * intros H. constructor; [|exact H]. apply (Hrule errs). now rewrite Hv.
      * inversion 1; assumption.
    + split; [discriminate|]. inversion 1 as [|? ? Hsafe].
      apply (Hrule errs) in Hsafe. rewrite Hv in Hsafe. discriminate.
Qed.

Lemma lookupTag_first_unexported (before after : list (StructField value))
    (f : StructField value) (name : string) :
  existsb (fun g => String.eqb (jsonTag g) name) before = false ->
  jsonTag f = name ->
  exported f = false ->
  lookupTag (before ++ f :: after) name = Panicked UnexportedField.
Proof.
  intros Hbefore Htag Hexp.
  induction before as [|g rest IH]; simpl.
  - rewrite Htag, String.eqb_refl, Hexp. reflexivity.
  - simpl in Hbefore. apply orb_false_iff in Hbefore as [Hg Hrest].
    rewrite Hg. auto.
Qed.

(** X4. When the first field that carries the rule's name as json tag is
    an unexported field, Validate panics at that rule (reflect refuses to
    hand out the value of such a field), whatever the validators of the
    rule and the rules after it are. *)
Theorem Validate_unexported_field_panics
    (data : value) (before after : list (StructField value))
    (f : StructField value) (pre post : list ValidationRule)
    (name description : string) (validations : list ValidationFunc)
    (e1 : list ValidationErrorItem) :
  indirect data = Some (VStruct (before ++ f :: after)) ->
  existsb (fun g => String.eqb (jsonTag g) name) before = false ->
  jsonTag f = name ->
  exported f = false ->
  Validate data pre = Returned e1 ->
  Validate data (pre ++ mkRule name description validations :: post)
  = Panicked UnexportedField.
Proof.
  intros Hdata Hbefore Htag Hexp Hpre. unfold Validate in *.
  rewrite validateRules_app, Hpre. simpl.
  unfold validateRule, getField, getFieldByJsonTag. simpl.
  rewrite Hdata, (lookupTag_first_unexported before after f name Hbefore Htag Hexp).
  reflexivity.
Qed.

Lemma Validate_unexported_field_panics_witness :
  Validate (VStruct [ mkField "Name" true "name" (VString "Jo");
                      mkField "secret" false "secret" (VString "x") ])
    [ mkRule "name" "Name" [RequiredValidation];
      mkRule "secret" "Secret" [RequiredValidation] ]
  = Panicked UnexportedField.
Proof.
  apply (Validate_unexported_field_panics
           (VStruct [ mkField "Name" true "name" (VString "Jo");
                      mkField "secret" false "secret" (VString "x") ])
           [mkField "Name" true "name" (VString "Jo")] []
           (mkField "secret" false "secret" (VString "x"))
           [mkRule "name" "Name" [RequiredValidation]] []
           "secret" "Secret" [RequiredValidation] []);
    reflexivity.
Defined.


Lemma getField_non_struct (data : value) (name : string) :
  (forall fields, indirect data <> Some (VStruct fields)) ->
  getField data name = Returned (inr ("field not found: " ++ name)%string).
Proof.
  intros H. apply getField_no_match. unfold hasTag.
  destruct (indirect data) as [[]|]; try reflexivity.
  now destruct (H fields).
Qed.

(** X6. When the record, once pointers are followed, is not a struct
    (nil, a nil pointer, a map, a string, a number, ...), no field
    resolves: Validate returns one field-not-found item per rule, in rule
    order, and runs no validator. *)
Theorem Validate_non_struct (data : value) (rules : list ValidationRule) :
  (forall fields, indirect data <> Some (VStruct fields)) ->
  Validate data rules = Returned (map (fun rule => notFound (RuleField rule)) rules).
Proof.
  intros Hdata. unfold Validate.
  assert (G : forall errs,
             validateRules data rules errs
             = Returned (errs ++ map (fun rule => notFound (RuleField rule)) rules)).
  { induction rules as [|rule rest IH]; intros errs; simpl.
    - now rewrite app_nil_r.
    - unfold validateRule. rewrite (getField_non_struct data _ Hdata). simpl.
      rewrite IH, <- app_assoc. reflexivity. }
  apply G.
Qed.

Lemma Validate_non_struct_witness :
  Validate (VMap [(VString "name", VString "Jo")])
    [mkRule "name" "Name" [fun _ => Panicked InterfaceConversion];
     mkRule "password" "Password" [RequiredValidation]]
  = Returned [notFound "name"; notFound "password"].
Proof.
  apply (Validate_non_struct (VMap [(VString "name", VString "Jo")])).
  intros fields; discriminate.
Defined.

(** X7. The first field whose json tag equals the rule's name decides:
    when it is exported and holds a non-nil value, the validators of the
    rule are run on that value, and fields after it with the same tag are
    never looked at. *)
Theorem validateRule_first_match
    (data : value) (before after : list (StructField value))
    (f : StructField value) (rule : ValidationRule)
    (errs : list ValidationErrorItem) :
  indirect data = Some (VStruct (before ++ f :: after)) ->
  existsb (fun g => String.eqb (jsonTag g) (RuleField rule)) before = false ->
  jsonTag f = RuleField rule ->
  exported f = true ->
  fieldValue f <> VNil ->
  getField data (RuleField rule) = Returned (inl (fieldValue f)) /\
  validateRule data errs rule
  = runValidations (RuleField rule) (fieldValue f) (Validations rule) errs.
Proof.
  intros Hdata Hbefore Htag Hexp Hnil.
  assert (Hget : getField data (RuleField rule) = Returned (inl (fieldValue f))).
  { unfold getField, getFieldByJsonTag. rewrite Hdata.
    rewrite (lookupTag_first_match before after f _ Hbefore Htag Hexp). simpl.
    destruct (fieldValue f); try reflexivity. contradiction. }
  split; [exact Hget|].
  unfold validateRule. rewrite Hget. reflexivity.
Qed.

Lemma validateRule_first_match_witness :
  validateRule
    (VStruct [ mkField "Name" true "name" (VString "Jo");
               mkField "Alias" true "name" (VString "Jonathan") ])
    [] (mkRule "name" "Name" [MinLengthValidation 3])
  = Returned [mkItem "name" "Field must be at least 3 characters long"].
Proof.
  pose proof (validateRule_first_match
           (VStruct [ mkField "Name" true "name" (VString "Jo");
                      mkField "Alias" true "name" (VString "Jonathan") ])
           [] [mkField "Alias" true "name" (VString "Jonathan")]
           (mkField "Name" true "name" (VString "Jo"))
           (mkRule "name" "Name" [MinLengthValidation 3]) []
           eq_refl eq_refl eq_refl eq_refl) as H.
  assert (Hnil : VString "Jo" <> VNil) by discriminate.
  destruct (H Hnil) as [_ Hrun]. rewrite Hrun. reflexivity.
Defined.

(** ** The README caller *)

(** X8. ValidateUser, as the README and the demo write it, reports
    field not found: name for every user: its first rule addresses the
    field as name while the struct tags it first_name.  The password rule
    works: it reports the required-check on an empty password, the minimum
    on fewer than 6 bytes, the maximum on more than 50, and nothing
    otherwise.  So ValidateUser never returns an empty list. *)
Theorem ValidateUser_always_reports_name (name password : string) :
  ValidateUser name password = Returned (notFound "name" :: passwordItems password)
  /\ ValidateUser name password <> Returned [].
Proof.
  assert (H : ValidateUser name password
              = Returned (notFound "name" :: passwordItems password)).
  { unfold ValidateUser, passwordItems.
    destruct password as [|c rest]; [reflexivity|].
    change (String.eqb (String c rest) EmptyString) with false. cbv iota.
    unfold Validate, userRules, readmeUser. cbn -[Z.of_nat Z.ltb String.length format_d].
    destruct (Z.of_nat (String.length (String c rest)) <? 6) eqn:Hmin;
      cbn -[Z.of_nat Z.ltb String.length format_d];
      destruct (50 <? Z.of_nat (String.length (String c rest))) eqn:Hmax;
      cbn -[Z.of_nat Z.ltb String.length format_d];
      first [reflexivity | exfalso; apply Z.ltb_lt in Hmin, Hmax; lia]. }
  split; [exact H|]. rewrite H. discriminate.
Qed.

(* ================================================================== *)
(** * Further properties of the validators *)

(** ** Presence and length *)

(** X9. The required-check on strings and collections: a string passes
    exactly when it is not empty, a slice or a map exactly when it has an
    element; in the failing cases the message is Field is required. *)
Theorem RequiredValidation_strings_and_collections :
  (forall s, RequiredValidation (VString s) = pass <-> s <> EmptyString) /\
  (forall elems, RequiredValidation (VSlice elems) = pass <-> elems <> []) /\
  (forall entries, RequiredValidation (VMap entries) = pass <-> entries <> []) /\
  RequiredValidation (VString EmptyString) = failure "Field is required" /\
  RequiredValidation (VSlice []) = failure "Field is required" /\
  RequiredValidation (VMap []) = failure "Field is required".
Proof.
  repeat split; try discriminate; try reflexivity.
  - intros H ->. discriminate H.
  - destruct s; [contradiction|reflexivity].
  - intros H ->. discriminate H.
  - destruct elems; [contradiction|reflexivity].
  - intros H ->. discriminate H.
  - destruct entries; [contradiction|reflexivity].
Qed.

(** X10. Values of a kind other than string, slice and map are never
    measured: a number (zero included), a boolean, a struct, an array, a
    pointer (a nil pointer included) passes the required-check and every
    minimum and maximum length. *)
Theorem other_kinds_pass_presence_and_length (v : value) (minLength maxLength : Z) :
  v <> VNil ->
  kind_of v <> KString -> kind_of v <> KSlice -> kind_of v <> KMap ->
  RequiredValidation v = pass /\
  MinLengthValidation minLength v = pass /\
  MaxLengthValidation maxLength v = pass.
Proof.
  intros Hnil HS HL HM.
  destruct v as [|b|t n|t n|t n|s|tn s|l|l|l|l|o|o|t]; try contradiction;
    try (destruct t); try (now destruct HS); try (now destruct HL);
    try (now destruct HM); repeat split; reflexivity.
Qed.

Lemma other_kinds_pass_presence_and_length_witness :
  RequiredValidation (VInt TInt 0) = pass /\
  MinLengthValidation 3 (VInt TInt 0) = pass /\
  MaxLengthValidation 1 (VInt TInt 0) = pass.
Proof.
  apply (other_kinds_pass_presence_and_length (VInt TInt 0) 3 1); discriminate.
Defined.

Lemma length_zero_empty (s : string) : String.length s = 0%nat <-> s = EmptyString.
Proof.
  destruct s; simpl; split; try reflexivity; discriminate.
Qed.

Lemma MinLengthValidation_string (minLength : Z) (s : string) :
  MinLengthValidation minLength (VString s)
  = if String.eqb s EmptyString then pass
    else if Z.of_nat (String.length s) <? minLength
    then failure ("Field must be at least " ++ format_d minLength ++ " characters long")
    else pass.
Proof.
  destruct s; reflexivity.
Qed.

Lemma MaxLengthValidation_string (maxLength : Z) (s : string) :
  MaxLengthValidation maxLength (VString s)
  = if String.eqb s EmptyString then pass
    else if maxLength <? Z.of_nat (String.length s)
    then failure ("Field must not exceed " ++ format_d maxLength ++ " characters")
    else pass.
Proof.
  destruct s; reflexivity.
Qed.

(** X11. Length bounds on a string count bytes and exempt the empty
    string: a string passes both MinLength(min) and MaxLength(max) exactly
    when it is empty or its length lies between min and max.  A non-empty
    string that is too short or too long gets the message with the bound
    printed in decimal. *)
Theorem length_bounds_on_strings (minLength maxLength : Z) (s : string) :
  ((MinLengthValidation minLength (VString s) = pass /\
    MaxLengthValidation maxLength (VString s) = pass)
   <-> (s = EmptyString \/ minLength <= Z.of_nat (String.length s) <= maxLength)) /\
  (s <> EmptyString -> Z.of_nat (String.length s) < minLength ->
   MinLengthValidation minLength (VString s)
   = failure ("Field must be at least " ++ format_d minLength ++ " characters long")) /\
  (s <> EmptyString -> maxLength < Z.of_nat (String.length s) ->
   MaxLengthValidation maxLength (VString s)
   = failure ("Field must not exceed " ++ format_d maxLength ++ " characters")).
Proof.
  rewrite MinLengthValidation_string, MaxLengthValidation_string.
  destruct s as [|c rest].
  - simpl. repeat split; auto; contradiction.
  - change (String.eqb (String c rest) EmptyString) with false. cbv iota.
    destruct (Z.ltb_spec (Z.of_nat (String.length (String c rest))) minLength) as [Hmin|Hmin];
      destruct (Z.ltb_spec maxLength (Z.of_nat (String.length (String c rest)))) as [Hmax|Hmax];
      (split; [split|split]);
      try (intros [H1 H2]; cbn in H1, H2; discriminate);
      try (intros [H|H]; [discriminate H|lia]);
      try (intros; reflexivity); try (intros; lia); auto.
Qed.

Lemma length_bounds_on_strings_witness :
  MinLengthValidation 3 (VString "Jo")
  = failure "Field must be at least 3 characters long".
Proof.
  apply (proj1 (proj2 (length_bounds_on_strings 3 50 "Jo"))).
  - discriminate.
  - reflexivity.
Defined.

Lemma MinLengthValidation_slice (minLength : Z) (elems : list value) :
  MinLengthValidation minLength (VSlice elems)
  = if Z.of_nat (List.length elems) <? minLength
    then failure ("Field must have at least " ++ format_d minLength ++ " items")
    else pass.
Proof. reflexivity. Qed.

Lemma MaxLengthValidation_slice (maxLength : Z) (elems : list value) :
  MaxLengthValidation maxLength (VSlice elems)
  = if maxLength <? Z.of_nat (List.length elems)
    then failure ("Field must not have more than " ++ format_d maxLength ++ " items")
    else pass.
Proof. reflexivity. Qed.

(** X12. Length bounds on a slice count its elements and have no
    exemption for the empty slice: MinLength(min) passes exactly when the
    slice has at least min elements and MaxLength(max) exactly when it has
    at most max.  So an empty slice fails MinLength(1), where the empty
    string passes it. *)
Theorem length_bounds_on_slices (minLength maxLength : Z) (elems : list value) :
  (MinLengthValidation minLength (VSlice elems) = pass
   <-> minLength <= Z.of_nat (List.length elems)) /\
  (MaxLengthValidation maxLength (VSlice elems) = pass
   <-> Z.of_nat (List.length elems) <= maxLength) /\
  MinLengthValidation 1 (VSlice []) = failure "Field must have at least 1 items" /\
  MinLengthValidation 1 (VString EmptyString) = pass.
Proof.
  rewrite MinLengthValidation_slice, MaxLengthValidation_slice.
  destruct (Z.ltb_spec (Z.of_nat (List.length elems)) minLength) as [Hmin|Hmin];
    destruct (Z.ltb_spec maxLength (Z.of_nat (List.length elems))) as [Hmax|Hmax];
    repeat split; try reflexivity; try lia;
    intros H; cbn in H; discriminate H.
Qed.

(** ** Which inputs make a validator panic *)

Ltac split_returns :=
  repeat match goal with
         | |- context [if ?b then _ else _] => destruct b
         | |- context [match ?x with _ => _ end] => destruct x
         end;
  reflexivity.

Ltac branches_return H :=
  repeat match type of H with
         | context [if ?b then _ else _] => destruct b
         end;
  discriminate H.

(** X13. EmailValidation, URLValidation, StringValidation, DateValidation
    and FileValidation return an item on every value: none of them can
    panic. *)
Theorem validators_that_never_panic (v : value) :
  returns (EmailValidation v) = true /\
  returns (URLValidation v) = true /\
  returns (StringValidation v) = true /\
  returns (DateValidation v) = true /\
  returns (FileValidation v) = true.
Proof.
  repeat split.
  - unfold EmailValidation. split_returns.
  - unfold URLValidation. split_returns.
  - unfold StringValidation. destruct (absent v); [reflexivity|].
    destruct (kind_of v); reflexivity.
  - unfold DateValidation. split_returns.
  - unfold FileValidation. split_returns.
Qed.

(** X14. PhoneValidation returns exactly on nil and on values of type
    string; on every other value (a number, a defined string type, a
    slice, a file handle, ...) it panics with an interface conversion
    error. *)
Theorem PhoneValidation_returns_iff (v : value) :
  (returns (PhoneValidation v) = true <-> v = VNil \/ exists s, v = VString s) /\
  (returns (PhoneValidation v) = false <-> PhoneValidation v = Panicked InterfaceConversion).
Proof.
  split.
  - split.
    + intros H. destruct v; try (discriminate H); eauto.
    + intros [->|[s ->]]; [reflexivity|].
      unfold PhoneValidation. destruct (absent (VString s)); [reflexivity|].
      simpl. destruct (negb (MatchString phoneRegex s)); reflexivity.
  - split.
    + intros H. destruct v; try reflexivity; try (discriminate H).
      unfold PhoneValidation in *. destruct (absent (VString s)); [discriminate H|].
      simpl in *. destruct (negb (MatchString phoneRegex s)); discriminate H.
    + intros ->. reflexivity.
Qed.

(** X15. RequiredValidation, MinLengthValidation, MaxLengthValidation and
    NumericValidation panic exactly on the values of a defined type whose
    underlying type is string (type Name string): such a value has kind
    String, and the unchecked assertion to string fails on it.
    StringValidation accepts these values. *)
Theorem defined_string_types_panic (v : value) (minLength maxLength : Z) :
  (returns (RequiredValidation v) = false <-> exists t s, v = VNamedString t s) /\
  (returns (MinLengthValidation minLength v) = false <-> exists t s, v = VNamedString t s) /\
  (returns (MaxLengthValidation maxLength v) = false <-> exists t s, v = VNamedString t s) /\
  (returns (NumericValidation v) = false <-> exists t s, v = VNamedString t s) /\
  (forall t s, StringValidation (VNamedString t s) = pass).
Proof.
  assert (Hnamed : forall w, (exists t s, w = VNamedString t s) ->
                             match w with VNamedString _ _ => True | _ => False end).
  { intros w (t & s & ->). exact I. }
  repeat split; try (intros (t & s & ->); reflexivity); intros H.
  - destruct v as [|b|t n|t n|t n|s|tn s|l|l|l|l|o|o|t]; try (now eauto);
      try (destruct t); try (discriminate H).
    + unfold RequiredValidation in H. destruct (absent (VString s)); [discriminate H|].
      simpl in H. destruct (String.eqb s EmptyString); discriminate H.
    + unfold RequiredValidation in H. simpl in H.
      destruct (Z.of_nat (List.length l) =? 0); discriminate H.
    + unfold RequiredValidation in H. simpl in H.
      destruct (Z.of_nat (List.length l) =? 0); discriminate H.
  - destruct v as [|b|t n|t n|t n|s|tn s|l|l|l|l|o|o|t]; try (now eauto);
      try (destruct t); try (discriminate H).
    + rewrite MinLengthValidation_string in H.
      destruct (String.eqb s EmptyString); [discriminate H|].
      destruct (Z.of_nat (String.length s) <? minLength); discriminate H.
    + rewrite MinLengthValidation_slice in H.
      destruct (Z.of_nat (List.length l) <? minLength); discriminate H.
    + unfold MinLengthValidation in H. simpl in H.
      destruct (Z.of_nat (List.length l) <? minLength); discriminate H.
  - destruct v as [|b|t n|t n|t n|s|tn s|l|l|l|l|o|o|t]; try (now eauto);
      try (destruct t); try (discriminate H).
    + rewrite MaxLengthValidation_string in H.
      destruct (String.eqb s EmptyString); [discriminate H|].
      destruct (maxLength <? Z.of_nat (String.length s)); discriminate H.
    + rewrite MaxLengthValidation_slice in H.
      destruct (maxLength <? Z.of_nat (List.length l)); discriminate H.
    + unfold MaxLengthValidation in H. simpl in H.
      destruct (maxLength <? Z.of_nat (List.length l)); discriminate H.
  - destruct v as [|b|t n|t n|t n|s|tn s|l|l|l|l|o|o|t]; try (now eauto);
      try (destruct t); try (discriminate H).
    unfold NumericValidation in H. destruct (absent (VString s)); [discriminate H|].
    simpl in H. destruct (negb (MatchString numericRegex s)); discriminate H.
Qed.

(** X16. ImageValidation, ImageMimeValidation, FileSizeValidation and
    FileTypeValidation panic exactly on a nil pointer to a file header
    (they read a field through it); FileValidation, which only checks the
    type, passes on it. *)
Theorem nil_file_pointer_panics (v : value) (maxSize : Z) (validTypes : list string) :
  (returns (ImageValidation v) = false <-> v = VFileHeader None) /\
  (returns (ImageMimeValidation v) = false <-> v = VFileHeader None) /\
  (returns (FileSizeValidation maxSize v) = false <-> v = VFileHeader None) /\
  (returns (FileTypeValidation v validTypes) = false <-> v = VFileHeader None) /\
  FileValidation (VFileHeader None) = pass.
Proof.
  repeat split; try (intros ->; reflexivity); intros H.
  - unfold ImageValidation in H. destruct (absent v); [discriminate H|].
    destruct v; try (discriminate H). destruct file as [fh|]; [|reflexivity].
    cbn [as_file deref bind] in H. branches_return H.
  - unfold ImageMimeValidation in H. destruct (absent v); [discriminate H|].
    destruct v; try (discriminate H). destruct file as [fh|]; [|reflexivity].
    cbn [as_file deref bind] in H. branches_return H.
  - unfold FileSizeValidation in H. destruct (absent v); [discriminate H|].
    destruct v; try (discriminate H). destruct file as [fh|]; [|reflexivity].
    cbn [as_file deref bind] in H. branches_return H.
  - unfold FileTypeValidation in H. destruct (absent v); [discriminate H|].
    destruct v; try (discriminate H). destruct file as [fh|]; [|reflexivity].
    cbn [as_file deref bind] in H. branches_return H.
Qed.

(** ** The languages of the patterns *)

Section PatternLanguages.

Local Open Scope string_scope.

Lemma all_bytes_app (p : ascii -> bool) (s1 s2 : string) :
  all_bytes p (s1 ++ s2) = all_bytes p s1 && all_bytes p s2.
Proof.
  induction s1 as [|c rest IH]; simpl; [reflexivity|].
  now rewrite IH, andb_assoc.
Qed.

Lemma split_at (n : nat) :
  forall s, (n <= String.length s)%nat ->
            exists s1 s2, s = s1 ++ s2 /\ String.length s1 = n.
Proof.
  induction n as [|n IH]; intros s Hn.
  - exists EmptyString, s. auto.
  - destruct s as [|c rest]; simpl in Hn; [lia|].
    destruct (IH rest) as (s1 & s2 & -> & Hlen); [lia|].
    exists (String c s1), s2. simpl. auto.
Qed.

Lemma lang_Class (p : ascii -> bool) (s : string) :
  lang (Class p) s <-> exists c, s = String c EmptyString /\ p c = true.
Proof.
  split.
  - inversion 1; subst; eauto.
  - intros (c & -> & Hp). now constructor.
Qed.

Lemma lang_Lit (c : ascii) (s : string) : lang (Lit c) s <-> s = String c EmptyString.
Proof.
  unfold Lit. rewrite lang_Class. split.
  - intros (d & -> & Hd). apply Ascii.eqb_eq in Hd. now subst.
  - intros ->. exists c. split; [reflexivity|apply Ascii.eqb_refl].
Qed.

Lemma lang_Star_Class (p : ascii -> bool) (s : string) :
  lang (Star (Class p)) s <-> all_bytes p s = true.
Proof.
  split.
  - intros H. remember (Star (Class p)) as r eqn:Er.
    induction H as [| | | | | |r0 s1 s2 H1 _ H2 IH2]; try discriminate; [reflexivity|].
    inversion Er; subst r0.
    apply lang_Class in H1 as (c & -> & Hc).
    simpl. rewrite Hc. now apply IH2.
  - induction s as [|c rest IH]; simpl; intros H; [constructor|].
    apply andb_true_iff in H as [Hc Hrest].
    change (String c rest) with (String c EmptyString ++ rest).
    constructor; [now constructor|auto].
Qed.

Lemma lang_Plus_Class (p : ascii -> bool) (s : string) :
  lang (Plus (Class p)) s <-> s <> EmptyString /\ all_bytes p s = true.
Proof.
  unfold Plus. rewrite lang_Cat. split.
  - intros (s1 & s2 & -> & H1 & H2).
    apply lang_Class in H1 as (c & -> & Hc). apply lang_Star_Class in H2.
    simpl. rewrite Hc, H2. split; [discriminate|reflexivity].
  - intros [Hne H]. destruct s as [|c rest]; [contradiction|].
    simpl in H. apply andb_true_iff in H as [Hc Hrest].
    exists (String c EmptyString), rest.
    repeat split; [now constructor|now apply lang_Star_Class].
Qed.

Lemma lang_Times_Class (p : ascii -> bool) (n : nat) :
  forall s, lang (Times n (Class p)) s <-> String.length s = n /\ all_bytes p s = true.
Proof.
  induction n as [|n IH]; intros s; simpl.
  - rewrite lang_Eps. split.
    + intros ->. auto.
    + intros [H _]. now apply length_zero_empty.
  - rewrite lang_Cat. split.
    + intros (s1 & s2 & -> & H1 & H2).
      apply lang_Class in H1 as (c & -> & Hc). apply IH in H2 as [Hlen Hall].
      simpl. rewrite Hc, Hall, Hlen. auto.
    + intros [Hlen H]. destruct s as [|c rest]; [discriminate|].
      simpl in *. apply andb_true_iff in H as [Hc Hrest].
      exists (String c EmptyString), rest.
      repeat split; [now constructor|]. apply IH. split; [lia|exact Hrest].
Qed.

Lemma lang_UpTo_Class (p : ascii -> bool) (n : nat) :
  forall s, lang (UpTo n (Class p)) s <-> (String.length s <= n)%nat /\ all_bytes p s = true.
Proof.
  induction n as [|n IH]; intros s; simpl.
  - rewrite lang_Eps. split.
    + intros ->. auto.
    + intros [H _]. apply length_zero_empty. lia.
  - unfold Opt. rewrite lang_Alt, lang_Eps, lang_Cat. split.
    + intros [->|(s1 & s2 & -> & H1 & H2)]; [simpl; split; [lia|reflexivity]|].
      apply lang_Class in H1 as (c & -> & Hc). apply IH in H2 as [Hlen Hall].
      simpl. rewrite Hc, Hall. split; [lia|reflexivity].
    + intros [Hlen H]. destruct s as [|c rest]; [now left|right].
      simpl in *. apply andb_true_iff in H as [Hc Hrest].
      exists (String c EmptyString), rest.
      repeat split; [now constructor|]. apply IH. split; [lia|exact Hrest].
Qed.

Lemma lang_AtLeast_Class (p : ascii -> bool) (n : nat) (s : string) :
  lang (AtLeast n (Class p)) s <-> (n <= String.length s)%nat /\ all_bytes p s = true.
Proof.
  unfold AtLeast. rewrite lang_Cat. split.
  - intros (s1 & s2 & -> & H1 & H2).
    apply lang_Times_Class in H1 as [Hlen H1]. apply lang_Star_Class in H2.
    rewrite app_length_string, all_bytes_app, H1, H2. split; [lia|reflexivity].
  - intros [Hlen H]. destruct (split_at n s Hlen) as (s1 & s2 & -> & Hn).
    rewrite all_bytes_app in H. apply andb_true_iff in H as [H1 H2].
    exists s1, s2. repeat split.
    + now apply lang_Times_Class.
    + now apply lang_Star_Class.
Qed.

Lemma lang_Between_Class (p : ascii -> bool) (n m : nat) (s : string) :
  (n <= m)%nat ->
  lang (Between n m (Class p)) s
  <-> (n <= String.length s <= m)%nat /\ all_bytes p s = true.
Proof.
  intros Hnm. unfold Between. rewrite lang_Cat. split.
  - intros (s1 & s2 & -> & H1 & H2).
    apply lang_Times_Class in H1 as [Hlen H1]. apply lang_UpTo_Class in H2 as [Hlen2 H2].
    rewrite app_length_string, all_bytes_app, H1, H2. split; [lia|reflexivity].
  - intros [Hlen H]. destruct (split_at n s) as (s1 & s2 & -> & Hn); [lia|].
    rewrite all_bytes_app in H. apply andb_true_iff in H as [H1 H2].
    rewrite app_length_string in Hlen.
    exists s1, s2. repeat split.
    + now apply lang_Times_Class.
    + apply lang_UpTo_Class. split; [lia|exact H2].
Qed.

Lemma numericRegex_language (s : string) :
  MatchString numericRegex s = true <-> s <> EmptyString /\ all_bytes is_digit s = true.
Proof.
  unfold MatchString, numericRegex. rewrite matches_lang. apply lang_Plus_Class.
Qed.

Lemma phoneRegex_language (s : string) :
  MatchString phoneRegex s = true <-> is_e164 s = true.
Proof.
  unfold MatchString, phoneRegex. rewrite matches_lang, lang_Cat. split.
  - intros (s1 & s2 & -> & H1 & H2).
    apply lang_Lit in H1 as ->. apply lang_Cat in H2 as (t1 & t2 & -> & H2 & H3).
    apply lang_Class in H2 as (d & -> & Hd).
    apply lang_Between_Class in H3 as [[Hlo Hhi] Hall]; [|lia].
    change (is_e164 (String "+" (String d t2)) = true).
    unfold is_e164. unfold digit in Hall.
    rewrite Hd, Hall, (proj2 (Nat.leb_le _ _) Hlo), (proj2 (Nat.leb_le _ _) Hhi).
    reflexivity.
  - destruct s as [|plus [|first rest]]; try discriminate. unfold is_e164.
    rewrite !andb_true_iff. intros [[[[Hplus Hfirst] Hall] Hlo] Hhi].
    apply Ascii.eqb_eq in Hplus as ->.
    apply Nat.leb_le in Hlo, Hhi.
    exists (String "+" EmptyString), (String first rest).
    repeat split; [now apply lang_Lit|].
    apply lang_Cat. exists (String first EmptyString), rest.
    repeat split; [now constructor|].
    apply lang_Between_Class; [lia|]. auto.
Qed.

End PatternLanguages.

(** ** Numbers and phone numbers *)

(** X17. NumericValidation on a string passes exactly when every byte is
    a decimal digit (the empty string included), and fails with Field must
    be numeric otherwise: a sign, a decimal point or a separator makes the
    string fail.  Values of the signed and unsigned integer types pass
    whatever their value; uintptr, floats and booleans fail. *)
Theorem NumericValidation_digits_only :
  (forall s, NumericValidation (VString s) = pass <-> all_bytes is_digit s = true) /\
  (forall s, all_bytes is_digit s = false ->
             NumericValidation (VString s) = failure "Field must be numeric") /\
  (forall t n, NumericValidation (VInt t n) = pass) /\
  (forall t n, t <> TUintptr -> NumericValidation (VUint t n) = pass) /\
  (forall n, NumericValidation (VUint TUintptr n) = failure "Field must be numeric") /\
  (forall t bits, NumericValidation (VFloat t bits) = failure "Field must be numeric") /\
  (forall b, NumericValidation (VBool b) = failure "Field must be numeric").
Proof.
  assert (Hstr : forall s, NumericValidation (VString s)
                           = if all_bytes is_digit s then pass
                             else failure "Field must be numeric").
  { intros s. destruct s as [|c rest]; [reflexivity|].
    unfold NumericValidation.
    change (absent (VString (String c rest))) with false. cbv iota.
    cbn [kind_of must_string as_string bind].
    destruct (MatchString numericRegex (String c rest)) eqn:Hm.
    - apply numericRegex_language in Hm as [_ ->]. reflexivity.
    - destruct (all_bytes is_digit (String c rest)) eqn:Hall; [|reflexivity].
      assert (MatchString numericRegex (String c rest) = true) as Hyes
          by (apply numericRegex_language; split; [discriminate|exact Hall]).
      congruence. }
  repeat split.
  - rewrite Hstr. destruct (all_bytes is_digit s); [reflexivity|discriminate].
  - rewrite Hstr. intros ->. reflexivity.
  - intros s Hs. rewrite Hstr, Hs. reflexivity.
  - intros t n. destruct t; reflexivity.
  - intros t n Ht. destruct t; try reflexivity. contradiction.
  - intros t bits. destruct t; reflexivity.
Qed.

(** X18. PhoneValidation on a string passes exactly when the string is
    empty or is a plus sign, a digit from 1 to 9 and then 1 to 14 further
    digits (so 3 to 16 bytes in all); every other string gets Invalid
    phone number format. *)
Theorem PhoneValidation_e164 (s : string) :
  (PhoneValidation (VString s) = pass <-> s = EmptyString \/ is_e164 s = true) /\
  (s <> EmptyString -> is_e164 s = false ->
   PhoneValidation (VString s) = failure "Invalid phone number format") /\
  (is_e164 s = true -> (3 <= String.length s <= 16)%nat).
Proof.
  assert (Hstr : PhoneValidation (VString s)
                 = if String.eqb s EmptyString then pass
                   else if is_e164 s then pass
                   else failure "Invalid phone number format").
  { destruct s as [|c rest]; [reflexivity|].
    unfold PhoneValidation.
    change (absent (VString (String c rest))) with false.
    change (String.eqb (String c rest) EmptyString) with false. cbv iota.
    cbn [must_string as_string bind].
    destruct (MatchString phoneRegex (String c rest)) eqn:Hm.
    - apply phoneRegex_language in Hm. rewrite Hm. reflexivity.
    - destruct (is_e164 (String c rest)) eqn:He; [|reflexivity].
      apply phoneRegex_language in He. congruence. }
  repeat split.
  - rewrite Hstr. destruct (String.eqb_spec s EmptyString) as [Heq|Hne]; [auto|].
    destruct (is_e164 s); [auto|discriminate].
  - rewrite Hstr. intros [-> | ->]; [reflexivity|].
    destruct (String.eqb s EmptyString); reflexivity.
  - intros Hne He. rewrite Hstr, He.
    destruct (String.eqb_spec s EmptyString); [contradiction|reflexivity].
  - clear Hstr. destruct s as [|plus [|first rest]]; try discriminate.
    unfold is_e164 in H.
    rewrite !andb_true_iff in H. destruct H as [[_ Hlo] _].
    apply Nat.leb_le in Hlo. simpl. lia.
  - clear Hstr. destruct s as [|plus [|first rest]]; try discriminate.
    unfold is_e164 in H.
    rewrite !andb_true_iff in H. destruct H as [_ Hhi].
    apply Nat.leb_le in Hhi. simpl. lia.
Qed.

Lemma PhoneValidation_e164_witness :
  PhoneValidation (VString "01712345678") = failure "Invalid phone number format".
Proof.
  apply (proj1 (proj2 (PhoneValidation_e164 "01712345678"))).
  - discriminate.
  - reflexivity.
Defined.

(** ** Email addresses *)

Section EmailLanguage.

Local Open Scope string_scope.

Lemma emailRegex_language (s : string) :
  MatchString emailRegex s = true <->
  exists loc domain tld,
    s = loc ++ "@" ++ domain ++ "." ++ tld /\
    loc <> EmptyString /\ all_bytes emailLocalByte loc = true /\
    domain <> EmptyString /\ all_bytes emailDomainByte domain = true /\
    (2 <= String.length tld)%nat /\ all_bytes alpha tld = true.
Proof.
  unfold MatchString, emailRegex. rewrite matches_lang, lang_Cat. split.
  - intros (loc & s1 & -> & Hloc & H1).
    apply lang_Plus_Class in Hloc as [Hloc1 Hloc2].
    apply lang_Cat in H1 as (at_ & s2 & -> & Hat & H2). apply lang_Lit in Hat as ->.
    apply lang_Cat in H2 as (domain & s3 & -> & Hdom & H3).
    apply lang_Plus_Class in Hdom as [Hdom1 Hdom2].
    apply lang_Cat in H3 as (dot & tld & -> & Hdot & Htld). apply lang_Lit in Hdot as ->.
    apply lang_AtLeast_Class in Htld as [Htld1 Htld2].
    exists loc, domain, tld. repeat split; assumption.
  - intros (loc & domain & tld & -> & Hloc1 & Hloc2 & Hdom1 & Hdom2 & Htld1 & Htld2).
    exists loc, ("@" ++ domain ++ "." ++ tld). repeat split.
    + apply lang_Plus_Class. split; assumption.
    + apply lang_Cat. exists "@", (domain ++ "." ++ tld). repeat split.
      * now apply lang_Lit.
      * apply lang_Cat. exists domain, ("." ++ tld). repeat split.
        -- apply lang_Plus_Class. split; assumption.
        -- apply lang_Cat. exists ".", tld. repeat split.
           ++ now apply lang_Lit.
           ++ apply lang_AtLeast_Class. split; assumption.
Qed.

End EmailLanguage.

(** X19. EmailValidation on a string passes exactly when the string is
    empty or reads local@domain.tld, where local is one or more letters,
    digits or bytes of ._%+-, domain is one or more letters, digits, dots
    or hyphens, and tld is two or more letters; every other string gets
    Field must be a valid email address. *)
Theorem EmailValidation_address_shape (s : string) :
  (EmailValidation (VString s) = pass <->
   s = EmptyString \/
   exists loc domain tld,
     s = (loc ++ "@" ++ domain ++ "." ++ tld)%string /\
     loc <> EmptyString /\ all_bytes emailLocalByte loc = true /\
     domain <> EmptyString /\ all_bytes emailDomainByte domain = true /\
     (2 <= String.length tld)%nat /\ all_bytes alpha tld = true) /\
  (EmailValidation (VString s) <> pass ->
   EmailValidation (VString s) = failure "Field must be a valid email address").
Proof.
  assert (Hstr : EmailValidation (VString s)
                 = if String.eqb s EmptyString then pass
                   else if MatchString emailRegex s then pass
                   else failure "Field must be a valid email address").
  { destruct s as [|c rest]; [reflexivity|].
    unfold EmailValidation.
    change (absent (VString (String c rest))) with false.
    change (String.eqb (String c rest) EmptyString) with false. cbv iota.
    cbn [as_string]. destruct (MatchString emailRegex (String c rest)); reflexivity. }
  rewrite Hstr. split; [split|].
  - destruct (String.eqb_spec s EmptyString) as [Heq|Hne]; [auto|].
    destruct (MatchString emailRegex s) eqn:Hm; [|discriminate].
    intros _. right. now apply emailRegex_language.
  - intros [Heq|Hshape].
    + subst s. reflexivity.
    + apply emailRegex_language in Hshape. rewrite Hshape.
      destruct (String.eqb s EmptyString); reflexivity.
  - destruct (String.eqb s EmptyString); [now intros []|].
    destruct (MatchString emailRegex s); [now intros []|reflexivity].
Qed.

Lemma EmailValidation_address_shape_witness :
  EmailValidation (VString "user@example")
  = failure "Field must be a valid email address".
Proof.
  apply (proj2 (EmailValidation_address_shape "user@example")).
  discriminate.
Defined.

(** ** Dates *)

Lemma digit_val_range (c : ascii) : is_digit c = true -> 0 <= GoTime.digit_val c <= 9.
Proof.
  unfold is_digit, byte_in, GoTime.digit_val. intros H.
  apply andb_true_iff in H as [Hlo Hhi].
  apply Nat.leb_le in Hlo, Hhi.
  change (nat_of_ascii "0") with 48%nat in Hlo.
  change (nat_of_ascii "9") with 57%nat in Hhi. lia.
Qed.

(** What time.Parse accepts has the shape of the pattern and a year of
    four digits. *)
Lemma Parse_shape (s : string) (d : GoTime.date) :
  GoTime.Parse s = Some d ->
  MatchString dateRegex s = true /\ 0 <= GoTime.Year d <= 9999.
Proof.
  unfold GoTime.Parse.
  destruct s as [|y1 [|y2 [|y3 [|y4 s1]]]]; try discriminate.
  cbn [GoTime.getyear].
  destruct (is_digit y1 && is_digit y2 && is_digit y3 && is_digit y4) eqn:Hy; [|discriminate].
  destruct s1 as [|dash1 s2]; [discriminate|]. cbn [GoTime.skip_dash].
  destruct (Ascii.eqb dash1 "-") eqn:Hd1; [|discriminate].
  destruct s2 as [|m1 [|m2 s3]]; try discriminate. cbn [GoTime.getnum2].
  destruct (is_digit m1 && is_digit m2) eqn:Hm; [|discriminate].
  match goal with |- context [if ?b then None else _] => destruct b end; [discriminate|].
  destruct s3 as [|dash2 s4]; [discriminate|]. cbn [GoTime.skip_dash].
  destruct (Ascii.eqb dash2 "-") eqn:Hd2; [|discriminate].
  destruct s4 as [|d1 [|d2 s5]]; try discriminate. cbn [GoTime.getnum2].
  destruct (is_digit d1 && is_digit d2) eqn:Hday; [|discriminate].
  destruct (String.eqb_spec s5 EmptyString) as [Es5|Es5]; [subst s5|discriminate]. cbn [negb].
  match goal with |- context [if ?b then None else _] => destruct b end; [discriminate|].
  intros H; inversion H; subst d; clear H. cbn [GoTime.Year].
  apply Ascii.eqb_eq in Hd1, Hd2. subst dash1 dash2.
  apply andb_true_iff in Hy as [Hy Hy4]. apply andb_true_iff in Hy as [Hy Hy3].
  apply andb_true_iff in Hy as [Hy1 Hy2].
  apply andb_true_iff in Hm as [Hm1 Hm2]. apply andb_true_iff in Hday as [Hday1 Hday2].
  split.
  - unfold MatchString, dateRegex. apply matches_lang.
    change (String y1 (String y2 (String y3 (String y4 (String "-"
             (String m1 (String m2 (String "-" (String d1 (String d2 EmptyString))))))))))
      with ((String y1 (String y2 (String y3 (String y4 EmptyString))))
            ++ (String "-" EmptyString)
            ++ (String m1 (String m2 EmptyString))
            ++ (String "-" EmptyString)
            ++ (String d1 (String d2 EmptyString)))%string.
    repeat apply lang_seq;
      try (apply lang_Lit; reflexivity);
      apply lang_Times_Class; (split; [reflexivity|]); unfold digit; cbn [all_bytes];
      rewrite ?Hy1, ?Hy2, ?Hy3, ?Hy4, ?Hm1, ?Hm2, ?Hday1, ?Hday2; reflexivity.
  - pose proof (digit_val_range y1 Hy1). pose proof (digit_val_range y2 Hy2).
    pose proof (digit_val_range y3 Hy3). pose proof (digit_val_range y4 Hy4). lia.
Qed.

Lemma DateValidation_string (s : string) :
  DateValidation (VString s)
  = if String.eqb s EmptyString then pass
    else match GoTime.Parse s with
         | Some date => if GoTime.Year date <? 1 then failure "Invalid year" else pass
         | None => if MatchString dateRegex s then failure "Invalid date"
                   else failure "Invalid date format"
         end.
Proof.
  destruct s as [|c rest]; [reflexivity|].
  unfold DateValidation.
  change (absent (VString (String c rest))) with false.
  change (String.eqb (String c rest) EmptyString) with false. cbv iota.
  cbn [as_string].
  destruct (GoTime.Parse (String c rest)) as [date|] eqn:Hparse.
  - destruct (Parse_shape _ _ Hparse) as [Hshape Hyear].
    destruct (Parse_calendar_date _ _ Hparse) as [Hmonth Hday].
    pose proof (daysIn_at_most_31 (GoTime.Month date) (GoTime.Year date)) as H31.
    rewrite Hshape. cbn [negb].
    replace (9999 <? GoTime.Year date) with false by (symmetry; apply Z.ltb_ge; lia).
    rewrite orb_false_r.
    destruct (GoTime.Year date <? 1); [reflexivity|].
    replace (GoTime.Month date <? 1) with false by (symmetry; apply Z.ltb_ge; lia).
    replace (12 <? GoTime.Month date) with false by (symmetry; apply Z.ltb_ge; lia).
    replace (GoTime.Day date <? 1) with false by (symmetry; apply Z.ltb_ge; lia).
    replace (31 <? GoTime.Day date) with false by (symmetry; apply Z.ltb_ge; lia).
    reflexivity.
  - destruct (MatchString dateRegex (String c rest)); reflexivity.
Qed.

(** X20. DateValidation on a string passes exactly when the string is
    empty or time.Parse accepts it with a year of at least 1; what it
    accepts is a day of the calendar.  Invalid year is the answer exactly
    for the dates of the year 0000.  The checks of the month and of the
    upper bound of the year after the parse never reject: no value gets
    Invalid month. *)
Theorem DateValidation_accepts_calendar_dates :
  (forall s, DateValidation (VString s) = pass <->
             s = EmptyString \/
             exists date, GoTime.Parse s = Some date /\
                          1 <= GoTime.Year date <= 9999 /\
                          1 <= GoTime.Month date <= 12 /\
                          1 <= GoTime.Day date
                            <= GoTime.daysIn (GoTime.Month date) (GoTime.Year date)) /\
  (forall s, DateValidation (VString s) = failure "Invalid year" <->
             exists date, GoTime.Parse s = Some date /\ GoTime.Year date = 0) /\
  (forall v, DateValidation v <> failure "Invalid month").
Proof.
  split; [|split].
  - intros s. rewrite DateValidation_string.
    destruct (String.eqb_spec s EmptyString) as [Heq|Hne]; [tauto|].
    destruct (GoTime.Parse s) as [date|] eqn:Hparse.
    + destruct (Parse_shape _ _ Hparse) as [_ Hyear].
      destruct (Parse_calendar_date _ _ Hparse) as [Hmonth Hday].
      destruct (Z.ltb_spec (GoTime.Year date) 1) as [Hlt|Hge]; split.
      * discriminate.
      * intros [Heq|(date' & E & Hy & _)]; [contradiction|].
        inversion E; subst date'. lia.
      * intros _. right. exists date. repeat split; try tauto; lia.
      * reflexivity.
    + split.
      * destruct (MatchString dateRegex s); discriminate.
      * intros [Heq|(date' & E & _)]; [contradiction|discriminate E].
  - intros s. rewrite DateValidation_string.
    destruct (String.eqb_spec s EmptyString) as [Heq|Hne].
    + subst s. split; [discriminate|]. intros (date & E & _). discriminate E.
    + destruct (GoTime.Parse s) as [date|] eqn:Hparse.
      * destruct (Parse_shape _ _ Hparse) as [_ Hyear].
        destruct (Z.ltb_spec (GoTime.Year date) 1) as [Hlt|Hge]; split.
        -- intros _. exists date. split; [reflexivity|lia].
        -- reflexivity.
        -- discriminate.
        -- intros (date' & E & Hy). inversion E; subst date'. lia.
      * split.
        -- destruct (MatchString dateRegex s); discriminate.
        -- intros (date' & E & _). discriminate E.
  - intros v. unfold DateValidation.
    destruct (absent v); [discriminate|].
    destruct (as_string v) as [dateStr|] eqn:Hs; [|discriminate].
    destruct v; try discriminate Hs. inversion Hs; subst dateStr.
    destruct (negb (MatchString dateRegex s)); [discriminate|].
    destruct (GoTime.Parse s) as [date|] eqn:Hparse; [|discriminate].
    destruct (Parse_calendar_date _ _ Hparse) as [Hmonth _].
    destruct ((GoTime.Year date <? 1) || (9999 <? GoTime.Year date)); [discriminate|].
    replace (GoTime.Month date <? 1) with false by (symmetry; apply Z.ltb_ge; lia).
    replace (12 <? GoTime.Month date) with false by (symmetry; apply Z.ltb_ge; lia).
    cbn [orb].
    destruct ((GoTime.Day date <? 1) || (31 <? GoTime.Day date)); discriminate.
Qed.

(** ** Files *)

Lemma contains_In (s : list string) (e : string) :
  contains s e = true <-> In e s.
Proof.
  induction s as [|a rest IH]; simpl.
  - split; [discriminate|contradiction].
  - destruct (String.eqb_spec a e) as [Heq|Hne].
    + split; auto.
    + rewrite IH. split; [auto|]. intros [H|H]; [contradiction|exact H].
Qed.

(** X21. contains decides membership in the list: it answers true
    exactly when the string is an element, wherever it stands and however
    often it occurs. *)
Theorem contains_iff_In (s : list string) (e : string) :
  contains s e = true <-> In e s.
Proof.
  exact (contains_In s e).
Qed.

(** X22. Whatever passes ImageMimeValidation passes ImageValidation: the
    four allowed media types all begin with image/. *)
Theorem ImageMime_pass_implies_Image_pass (v : value) :
  ImageMimeValidation v = pass -> ImageValidation v = pass.
Proof.
  unfold ImageMimeValidation, ImageValidation.
  destruct (absent v); [reflexivity|].
  destruct (as_file v) as [[fh|]|]; try discriminate.
  cbn [deref bind].
  destruct (contains allowedMimeTypes (contentType fh)) eqn:Hc; [|discriminate].
  intros _. apply contains_In in Hc.
  unfold allowedMimeTypes in Hc. simpl in Hc.
  destruct Hc as [<-|[<-|[<-|[<-|[]]]]]; reflexivity.
Qed.

Lemma ImageMime_pass_implies_Image_pass_witness :
  ImageValidation (upload "image/svg+xml" 100) = pass.
Proof.
  apply (ImageMime_pass_implies_Image_pass (upload "image/svg+xml" 100)).
  reflexivity.
Defined.

(** X23. FileSizeValidation(maxSize) passes a file handle exactly when
    the size is at most maxSize: a file of exactly maxSize bytes passes,
    although the message of the failing case reads must be less than.  A
    handle that passes a bound passes every larger one. *)
Theorem FileSizeValidation_bound (fh : FileHeader) (maxSize : Z) :
  (FileSizeValidation maxSize (VFileHeader (Some fh)) = pass <-> Size fh <= maxSize) /\
  (maxSize < Size fh ->
   FileSizeValidation maxSize (VFileHeader (Some fh))
   = failure ("File size must be less than " ++ format_d maxSize ++ " bytes")) /\
  (forall larger, maxSize <= larger ->
     FileSizeValidation maxSize (VFileHeader (Some fh)) = pass ->
     FileSizeValidation larger (VFileHeader (Some fh)) = pass).
Proof.
  assert (Hf : forall m, FileSizeValidation m (VFileHeader (Some fh))
                         = if m <? Size fh
                           then failure ("File size must be less than " ++ format_d m ++ " bytes")
                           else pass) by reflexivity.
  split; [|split].
  - rewrite Hf. destruct (Z.ltb_spec maxSize (Size fh)) as [Hcmp|Hcmp];
      split; try reflexivity; try lia.
    intros Hp. cbn in Hp. discriminate Hp.
  - intros Hlt. rewrite Hf.
    destruct (Z.ltb_spec maxSize (Size fh)) as [Hcmp|Hcmp]; [reflexivity|lia].
  - intros larger Hle. rewrite !Hf.
    destruct (Z.ltb_spec maxSize (Size fh)) as [Hcmp|Hcmp].
    + intros Hp. cbn in Hp. discriminate Hp.
    + intros _. destruct (Z.ltb_spec larger (Size fh)) as [Hl|Hl]; [lia|reflexivity].
Qed.

Lemma FileSizeValidation_bound_witness :
  FileSizeValidation 1000 (upload "image/png" 1500)
  = failure "File size must be less than 1000 bytes".
Proof.
  apply (proj1 (proj2 (FileSizeValidation_bound
                         (mkFileHeader "upload.bin" [("Content-Type", ["image/png"])] 1500)
                         1000))).
  reflexivity.
Defined.

Lemma lower_byte_idempotent (c : ascii) : lower_byte (lower_byte c) = lower_byte c.
Proof.
  unfold lower_byte. destruct (is_upper c) eqn:Hup; [|now rewrite Hup].
  assert (Hlow : is_upper (ascii_of_nat (nat_of_ascii c + 32)) = false).
  { unfold is_upper, byte_in in *.
    apply andb_true_iff in Hup as [Hlo Hhi]. apply Nat.leb_le in Hlo, Hhi.
    change (nat_of_ascii "A") with 65%nat in *.
    change (nat_of_ascii "Z") with 90%nat in *.
    rewrite nat_ascii_embedding by lia.
    apply andb_false_iff. right. apply Nat.leb_gt. lia. }
  now rewrite Hlow.
Qed.

Lemma ToLower_idempotent (s : string) : ToLower (ToLower s) = ToLower s.
Proof.
  induction s as [|c rest IH]; simpl; [reflexivity|].
  now rewrite lower_byte_idempotent, IH.
Qed.

(** X24. FileTypeValidation passes a file handle exactly when validTypes
    holds the content type with a leading application/ removed and then
    lower-cased.  The entries of validTypes are compared as they are
    written, so an entry with an upper-case letter matches no file: a
    list made of such entries refuses every handle.  (Content types are
    ASCII text, on which ToLower is modelled.) *)
Theorem FileTypeValidation_membership (fh : FileHeader) (validTypes : list string) :
  isASCII (contentType fh) = true ->
  (FileTypeValidation (VFileHeader (Some fh)) validTypes = pass <->
   In (ToLower (TrimPrefix (contentType fh) "application/")) validTypes) /\
  ((forall t, In t validTypes -> ToLower t <> t) ->
   FileTypeValidation (VFileHeader (Some fh)) validTypes
   = failure "File type is not allowed").
Proof.
  intros _.
  assert (Hf : FileTypeValidation (VFileHeader (Some fh)) validTypes
               = if contains validTypes (ToLower (TrimPrefix (contentType fh) "application/"))
                 then pass else failure "File type is not allowed").
  { unfold FileTypeValidation. cbn [absent is_nil is_empty_string orb as_file deref bind].
    destruct (contains validTypes _); reflexivity. }
  rewrite Hf. split.
  - rewrite <- contains_In.
    destruct (contains validTypes _); split; try reflexivity; discriminate.
  - intros Hupper.
    destruct (contains validTypes _) eqn:Hc; [|reflexivity].
    apply contains_In in Hc. apply Hupper in Hc.
    now rewrite ToLower_idempotent in Hc.
Qed.

Lemma FileTypeValidation_membership_witness :
  FileTypeValidation (upload "application/pdf" 10) ["PDF"; "Zip"]
  = failure "File type is not allowed".
Proof.
  apply (proj2 (FileTypeValidation_membership
                  (mkFileHeader "upload.bin" [("Content-Type", ["application/pdf"])] 10)
                  ["PDF"; "Zip"] eq_refl)).
  intros t [<-|[<-|[]]]; discriminate.
Defined.

Lemma header_get_missing (h : list (string * list string)) (key : string) :
  Forall (fun kv => fst kv <> key) h -> header_get h key = EmptyString.
Proof.
  induction 1 as [|[k vs] rest Hk _ IH]; simpl; [reflexivity|].
  simpl in Hk. destruct (String.eqb_spec k key); [contradiction|exact IH].
Qed.

(** X25. A file handle whose header has no Content-Type entry has the
    empty content type: ImageValidation and ImageMimeValidation refuse it,
    and FileTypeValidation accepts it only when validTypes holds the empty
    string. *)
Theorem missing_content_type (fh : FileHeader) (validTypes : list string) :
  Forall (fun kv => fst kv <> "Content-Type"%string) (Header fh) ->
  ImageValidation (VFileHeader (Some fh)) = failure "File must be an image" /\
  ImageMimeValidation (VFileHeader (Some fh))
  = failure "File must be a PNG, JPG, JPEG or SVG" /\
  (FileTypeValidation (VFileHeader (Some fh)) validTypes = pass
   <-> In EmptyString validTypes).
Proof.
  intros Hmissing.
  assert (Hct : contentType fh = EmptyString)
    by (apply header_get_missing; exact Hmissing).
  unfold ImageValidation, ImageMimeValidation, FileTypeValidation.
  cbn [absent is_nil is_empty_string orb as_file deref bind].
  rewrite Hct. repeat split; try reflexivity.
  - change (ToLower (TrimPrefix EmptyString "application/")) with EmptyString.
    destruct (contains validTypes EmptyString) eqn:Hc; [|discriminate].
    intros _. now apply contains_In.
  - intros Hin. apply contains_In in Hin.
    change (ToLower (TrimPrefix EmptyString "application/")) with EmptyString.
    rewrite Hin. reflexivity.
Qed.

Lemma missing_content_type_witness :
  ImageValidation (VFileHeader (Some (mkFileHeader "a.png" [] 10)))
  = failure "File must be an image".
Proof.
  apply (missing_content_type (mkFileHeader "a.png" [] 10) []).
  constructor.
Defined.

(** ** URLs *)

Section UrlLanguage.

Local Open Scope string_scope.

Lemma lang_classes_within (p : ascii -> bool) (r : regex) (s : string) :
  lang r s -> classes_within p r -> all_bytes p s = true.
Proof.
  induction 1 as [|q c Hq|r1 r2 s1 s2 _ IH1 _ IH2|r1 r2 s0 _ IH|r1 r2 s0 _ IH|
                  r0|r0 s1 s2 _ IH1 _ IH2]; simpl; intros Hw.
  - reflexivity.
  - rewrite (Hw c Hq). reflexivity.
  - destruct Hw as [H1 H2]. rewrite all_bytes_app, IH1, IH2; auto.
  - destruct Hw as [H1 H2]. auto.
  - destruct Hw as [H1 H2]. auto.
  - reflexivity.
  - rewrite all_bytes_app, IH1, IH2; auto.
Qed.

Lemma lang_Str (t s : string) : lang (Str t) s <-> s = t.
Proof.
  revert s. induction t as [|c rest IH]; intros s; simpl.
  - apply lang_Eps.
  - rewrite lang_Cat. split.
    + intros (s1 & s2 & -> & H1 & H2). apply lang_Lit in H1 as ->.
      apply IH in H2 as ->. reflexivity.
    + intros ->. exists (String c EmptyString), rest.
      repeat split; [now apply lang_Lit|now apply IH].
Qed.

Lemma one_of_app (a b : string) (c : ascii) :
  one_of (a ++ b) c = one_of a c || one_of b c.
Proof.
  induction a as [|d rest IH]; simpl; [reflexivity|].
  now rewrite IH, orb_assoc.
Qed.

Lemma urlRegex_within_urlByte : classes_within urlByte urlRegex.
Proof.
  assert (Hword : forall c, word c = true -> urlByte c = true).
  { intros c H. unfold urlByte. now rewrite H. }
  assert (Hlit : forall d c, one_of "-_.,@?^=%&:/~+#" d = true ->
                             Ascii.eqb d c = true -> urlByte c = true).
  { intros d c Hd Hc. apply Ascii.eqb_eq in Hc. subst c.
    unfold urlByte. rewrite Hd. apply orb_true_r. }
  assert (Hletter : forall d c, word d = true -> Ascii.eqb d c = true -> urlByte c = true).
  { intros d c Hd Hc. apply Ascii.eqb_eq in Hc. subst c. now apply Hword. }
  assert (Hset : forall set c,
             (forall d, one_of set d = true -> one_of "-_.,@?^=%&:/~+#" d = true) ->
             word c || one_of set c = true -> urlByte c = true).
  { intros set c Hsub H. apply orb_true_iff in H as [H|H]; [now apply Hword|].
    unfold urlByte. rewrite (Hsub c H). apply orb_true_r. }
  assert (Hsub : forall set,
             forallb (fun d => one_of "-_.,@?^=%&:/~+#" d) (list_ascii_of_string set) = true ->
             forall d, one_of set d = true -> one_of "-_.,@?^=%&:/~+#" d = true).
  { induction set as [|e rest IH]; simpl; intros Hall d Hd; [discriminate|].
    apply andb_true_iff in Hall as [He Hrest].
    apply orb_true_iff in Hd as [Hd|Hd].
    - apply Ascii.eqb_eq in Hd. now subst d.
    - now apply IH. }
  unfold urlRegex. cbn -[word one_of urlByte Ascii.eqb].
  repeat split;
    try (intros c; apply (Hletter _ c); reflexivity);
    try (intros c; apply (Hlit _ c); reflexivity);
    intros c; apply Hset; apply Hsub; reflexivity.
Qed.

Lemma urlRegex_language (s : string) :
  MatchString urlRegex s = true ->
  (exists rest, s = "http://" ++ rest \/ s = "https://" ++ rest) /\
  all_bytes urlByte s = true.
Proof.
  unfold MatchString. rewrite matches_lang. intros H. split.
  - unfold urlRegex in H.
    apply lang_Cat in H as (scheme & s1 & -> & Hscheme & H1).
    apply lang_Cat in H1 as (sep & rest & -> & Hsep & _).
    apply lang_Str in Hsep as ->.
    apply lang_Alt in Hscheme as [Hs|Hs]; apply lang_Str in Hs as ->;
      exists rest; [left|right]; reflexivity.
  - exact (lang_classes_within urlByte urlRegex s H urlRegex_within_urlByte).
Qed.

End UrlLanguage.

(** X26. A string that passes URLValidation is empty, or starts with
    http:// or https:// and holds only letters, digits and bytes of
    -_.,@?^=%&:/~+# (so no space, no quote, no bracket); a value that is
    present and does not pass gets Value is not a string or Value is not a
    valid URL. *)
Theorem URLValidation_necessary (s : string) :
  URLValidation (VString s) = pass ->
  s = EmptyString \/
  ((exists rest, s = ("http://" ++ rest)%string \/ s = ("https://" ++ rest)%string) /\
   all_bytes urlByte s = true).
Proof.
  destruct s as [|c rest]; [now left|].
  unfold URLValidation.
  change (absent (VString (String c rest))) with false. cbv iota. cbn [as_string].
  destruct (MatchString urlRegex (String c rest)) eqn:Hm; [|discriminate].
  intros _. right. now apply urlRegex_language.
Qed.

Lemma URLValidation_necessary_witness :
  "https://example.com/a?b=1"%string = EmptyString \/
  ((exists rest, "https://example.com/a?b=1" = ("http://" ++ rest)%string
                 \/ "https://example.com/a?b=1" = ("https://" ++ rest)%string) /\
   all_bytes urlByte "https://example.com/a?b=1" = true).
Proof.
  apply (URLValidation_necessary "https://example.com/a?b=1").
  reflexivity.
Defined.

(** ** How the validators combine *)

(** X27. On a string the required-check and a minimum length never both
    fail: the required-check fails only on the empty string, which every
    MinLength passes.  On a slice they can: the empty slice fails the
    required-check and every minimum of 1 or more. *)
Theorem Required_and_MinLength_together (minLength : Z) :
  (forall s, RequiredValidation (VString s) = pass \/
             MinLengthValidation minLength (VString s) = pass) /\
  (1 <= minLength ->
   RequiredValidation (VSlice []) = failure "Field is required" /\
   MinLengthValidation minLength (VSlice [])
   = failure ("Field must have at least " ++ format_d minLength ++ " items")).
Proof.
  split.
  - intros [|c rest]; [right|left]; reflexivity.
  - intros Hmin. split; [reflexivity|].
    rewrite MinLengthValidation_slice.
    destruct (Z.ltb_spec (Z.of_nat (List.length (@nil value))) minLength) as [Hlt|Hge];
      [reflexivity|simpl in Hge; lia].
Qed.

Lemma Required_and_MinLength_together_witness :
  Validate (VStruct [mkField "Tags" true "tags" (VSlice [])])
    [mkRule "tags" "Tags" [RequiredValidation; MinLengthValidation 2]]
  = Returned [mkItem "tags" "Field is required";
              mkItem "tags" "Field must have at least 2 items"].
Proof.
  assert (Hmin : 1 <= 2) by lia.
  destruct (proj2 (Required_and_MinLength_together 2) Hmin) as [Hreq Hlen].
  unfold Validate, validateRules, validateRule. cbn [RuleField Validations].
  change (getField (VStruct [mkField "Tags" true "tags" (VSlice [])]) "tags")
    with (@Returned (value + string) (inl (VSlice []))).
  cbn [bind runValidations]. rewrite Hreq. cbn [bind failure].
  change (negb (item_eqb (mkItem EmptyString "Field is required") NoError)) with true.
  cbv iota. rewrite Hlen. reflexivity.
Defined.

(** X28. StringValidation passes exactly on nil and on the values of
    kind String, which are the strings and the values of defined string
    types; every other value gets Field must be a string. *)
Theorem StringValidation_kind (v : value) :
  (StringValidation v = pass <-> v = VNil \/ kind_of v = KString) /\
  (StringValidation v <> pass -> StringValidation v = failure "Field must be a string").
Proof.
  split; [split|].
  - destruct v as [|b|t n|t n|t n|s|tn s|l|l|l|l|o|o|t];
      try (destruct t); auto; intros H; cbn in H; discriminate H.
  - intros [->|Hk]; [reflexivity|].
    destruct v as [|b|t n|t n|t n|s|tn s|l|l|l|l|o|o|t];
      try (destruct t); try discriminate Hk; try reflexivity.
    unfold StringValidation. destruct (absent (VString s)); reflexivity.
  - destruct v as [|b|t n|t n|t n|s|tn s|l|l|l|l|o|o|t];
      try (destruct t); intros H; try reflexivity; try (now destruct H).
    unfold StringValidation in *. destruct (absent (VString s)); now destruct H.
Qed.
